(** * Age gate at the edge: a shallow embedding of [src/main.ts]

    The handler [responseProvider] reads a JSON body, derives an age from its
    [birthday] field, looks the minimal age of the caller's country up in a
    key/value store and answers with a JSON document, adding a cookie when the
    caller is old enough.

    The JavaScript values the handler touches are modelled as follows.
    - A [number] that holds a time value, a year or an age is either [NaN] or
      an integer: every such number of the program is produced by [TimeClip]
      or by integer arithmetic on such values, and stays far below 2^53, where
      IEEE doubles are exact.
    - A number read from the JSON body is the exact rational value of the
      double it was parsed to (or an infinity, for a literal that overflows).
    - Strings are byte strings (the UTF-8 encoding of the text).
    - The current instant read by [new Date()] is the parameter [now]. *)

From Stdlib Require Import ZArith QArith List String Ascii Bool Lia.
From Stdlib Require Import DecimalString DecimalZ DecimalPos.
Import ListNotations.
Open Scope Z_scope.

(** ** ECMAScript built-ins used by the handler *)

Set Warnings "-register-all".

Module ES.

Inductive number : Type :=
| NaN
| Num (z : Z).

Definition number_sub (a b : number) : number :=
  match a, b with
  | Num x, Num y => Num (x - y)
  | _, _ => NaN
  end.

(** [a >= b]: false as soon as an operand is NaN. *)
Definition number_ge (a b : number) : bool :=
  match a, b with
  | Num x, Num y => y <=? x
  | _, _ => false
  end.

(** A double as JSON.parse produces it. *)
Inductive double : Type :=
| Finite (q : Q)
| Infinite (negative : bool).

(** The values JSON.parse produces. The properties of an object are kept in
    the order of the text; a later duplicate of a key wins. *)
Inductive JsonValue : Type :=
| JNull
| JBool (b : bool)
| JNumber (d : double)
| JString (s : string)
| JArray (items : list JsonValue)
| JObject (properties : list (string * JsonValue)).

Inductive Exception : Type :=
| TypeError.

Inductive Completion (A : Type) : Type :=
| Normal (a : A)
| Throw (e : Exception).
Arguments Normal {A} a.
Arguments Throw {A} e.

Fixpoint last_property (properties : list (string * JsonValue)) (key : string)
    (found : option JsonValue) : option JsonValue :=
  match properties with
  | [] => found
  | (k, v) :: rest =>
      last_property rest key (if String.eqb k key then Some v else found)
  end.

(** [value[key]] for a key that no prototype defines (here ['birthday']):
    reading a property of null throws, a primitive or an array has no such
    property, an object yields its own property or undefined ([None]). *)
Definition get_property (value : JsonValue) (key : string)
    : Completion (option JsonValue) :=
  match value with
  | JNull => Throw TypeError
  | JObject properties => Normal (last_property properties key None)
  | _ => Normal None
  end.

(** *** Time values (ECMA-262, Date objects) *)

Definition msPerDay : Z := 86400000.
Definition maxTime : Z := 8640000000000000.

Definition Day (t : Z) : Z := t / msPerDay.

Definition InLeapYear (y : Z) : bool :=
  ((y mod 4 =? 0) && negb (y mod 100 =? 0)) || (y mod 400 =? 0).

Definition DaysInYear (y : Z) : Z := if InLeapYear y then 366 else 365.

Definition DayFromYear (y : Z) : Z :=
  365 * (y - 1970) + (y - 1969) / 4 - (y - 1901) / 100 + (y - 1601) / 400.

Definition TimeFromYear (y : Z) : Z := msPerDay * DayFromYear y.

(** The largest year [y] with [TimeFromYear y <= t], found from the mean
    length of a Gregorian year and one step of correction
    (see [YearFromTime_largest]). *)
Definition YearFromTime (t : Z) : Z :=
  let d := Day t in
  let y := 1970 + (400 * d) / 146097 in
  if d <? DayFromYear y then y - 1
  else if DayFromYear (y + 1) <=? d then y + 1
  else y.

Definition TimeClip (time : number) : number :=
  match time with
  | NaN => NaN
  | Num t => if maxTime <? Z.abs t then NaN else Num t
  end.

(** [TimeClip] of a double: out of range gives NaN, otherwise the value is
    truncated towards zero. *)
Definition TimeClip_double (d : double) : number :=
  match d with
  | Infinite _ => NaN
  | Finite q =>
      if maxTime * Zpos (Qden q) <? Z.abs (Qnum q) then NaN
      else Num (Z.quot (Qnum q) (Zpos (Qden q)))
  end.

Record Date : Type := mkDate { DateValue : number }.

Definition getTime (d : Date) : number := DateValue d.

Definition getUTCFullYear (d : Date) : number :=
  match DateValue d with
  | NaN => NaN
  | Num t => Num (YearFromTime t)
  end.

(** [new Date(n)] for a number. *)
Definition Date_of_number (n : number) : Date := mkDate (TimeClip n).

(** *** The date-only form [YYYY-MM-DD] of the date-time string format *)

Definition digit (c : ascii) : option Z :=
  let n := Z.of_nat (nat_of_ascii c) in
  if (48 <=? n) && (n <=? 57) then Some (n - 48) else None.

Fixpoint digits (cs : list ascii) (acc : Z) : option Z :=
  match cs with
  | [] => Some acc
  | c :: rest =>
      match digit c with
      | Some n => digits rest (10 * acc + n)
      | None => None
      end
  end.

Definition DaysInMonth (y m : Z) : Z :=
  if m =? 2 then (if InLeapYear y then 29 else 28)
  else if (m =? 4) || (m =? 6) || (m =? 9) || (m =? 11) then 30
  else 31.

Fixpoint days_before (y : Z) (months : nat) : Z :=
  match months with
  | O => 0
  | S k => days_before y k + DaysInMonth y (Z.of_nat (S k))
  end.

(** [MakeDay] for a month in 1..12 and a day of that month. *)
Definition MakeDay (y m d : Z) : Z :=
  DayFromYear y + days_before y (Z.to_nat (m - 1)) + (d - 1).

Definition is_dash (c : ascii) : bool := Ascii.eqb c "-"%char.

(** The time value of a string [YYYY-MM-DD] that names a day of the
    calendar (midnight UTC); [None] for every other string. *)
Definition parse_date_only (s : string) : option Z :=
  match list_ascii_of_string s with
  | [y1; y2; y3; y4; s1; m1; m2; s2; d1; d2] =>
      if is_dash s1 && is_dash s2 then
        match digits [y1; y2; y3; y4] 0, digits [m1; m2] 0, digits [d1; d2] 0 with
        | Some y, Some m, Some d =>
            if (1 <=? m) && (m <=? 12) && (1 <=? d) && (d <=? DaysInMonth y m)
            then Some (msPerDay * MakeDay y m d)
            else None
        | _, _, _ => None
        end
      else None
  | _ => None
  end.

(** The Date that [new Date(value)] builds for what [body['birthday']] can
    be, once the conversion of [value] to a primitive has completed (whether
    it completes is [ToPrimitive_throws]; the expression as a whole is
    [Date_constructor]). ECMA-262 fixes the result for undefined, null,
    booleans, numbers and strings in the date-only form that name a calendar
    day. For the other strings (other formats, and what an engine accepts
    beyond them) and for arrays and objects (converted to a string first)
    the time value is what the engine computes, [engineDate]; the
    constructor clips it like any other. *)
Definition new_Date (engineDate : JsonValue -> number)
    (value : option JsonValue) : Date :=
  match value with
  | None => mkDate NaN
  | Some JNull => Date_of_number (Num 0)
  | Some (JBool b) => Date_of_number (Num (if b then 1 else 0))
  | Some (JNumber d) => mkDate (TimeClip_double d)
  | Some (JString s) =>
      match parse_date_only s with
      | Some t => Date_of_number (Num t)
      | None => Date_of_number (engineDate (JString s))
      end
  | Some v => Date_of_number (engineDate v)
  end.

Definition has_own_property (properties : list (string * JsonValue))
    (key : string) : bool :=
  existsb (fun p => String.eqb (fst p) key) properties.

(** Whether ToPrimitive throws on a parsed value. An object is converted by
    [valueOf], which returns the object itself when inherited, and then by
    [toString]; a property of the body that shadows [toString] is never
    callable, and then no method is left: TypeError. An array is joined, which
    converts every element that is an array or an object in the same way
    (null and primitives never throw). *)
Fixpoint ToPrimitive_throws (v : JsonValue) : bool :=
  match v with
  | JObject properties => has_own_property properties "toString"
  | JArray items => existsb ToPrimitive_throws items
  | _ => false
  end.

(** The expression [new Date(value)]: a TypeError when the conversion of
    the value throws, the Date [new_Date] otherwise. *)
Definition Date_constructor (engineDate : JsonValue -> number)
    (value : option JsonValue) : Completion Date :=
  match value with
  | None => Normal (new_Date engineDate None)
  | Some v =>
      if ToPrimitive_throws v then Throw TypeError
      else Normal (new_Date engineDate (Some v))
  end.

(** *** JSON.stringify on strings and numbers *)

Definition dquote : string := String (ascii_of_nat 34) EmptyString.
Definition backslash : string := String (ascii_of_nat 92) EmptyString.

Definition hex_digit (n : nat) : ascii :=
  ascii_of_nat (if Nat.ltb n 10 then 48 + n else 87 + n).

(** One character of a quoted JSON string. *)
Definition escape_char (c : ascii) : string :=
  let n := nat_of_ascii c in
  if Nat.eqb n 34 then append backslash dquote
  else if Nat.eqb n 92 then append backslash backslash
  else if Nat.eqb n 8 then append backslash "b"
  else if Nat.eqb n 9 then append backslash "t"
  else if Nat.eqb n 10 then append backslash "n"
  else if Nat.eqb n 12 then append backslash "f"
  else if Nat.eqb n 13 then append backslash "r"
  else if Nat.ltb n 32 then
    append backslash
      (append "u00" (String (hex_digit (Nat.div n 16))
                       (String (hex_digit (Nat.modulo n 16)) EmptyString)))
  else String c EmptyString.

Fixpoint escape (s : string) : string :=
  match s with
  | EmptyString => EmptyString
  | String c rest => append (escape_char c) (escape rest)
  end.

Definition QuoteJSONString (s : string) : string :=
  append dquote (append (escape s) dquote).

(** Decimal notation of an integer: what Number::toString gives below 10^21,
    as every age is. *)
Definition Number_toString (z : Z) : string :=
  NilZero.string_of_int (Z.to_int z).

(** JSON.stringify of a number: a number that is not finite prints as null. *)
Definition stringify_number (n : number) : string :=
  match n with
  | NaN => "null"
  | Num z => Number_toString z
  end.

End ES.

(** ** The platform: requests, responses, cookies, the log *)

Module EW.

(** The geolocation of the request. The handler reads
    [request.userLocation.country] without a test, so the object is taken as
    present; its country is a string or undefined ([None]). *)
Record UserLocation : Type := { country : option string }.

(** What awaiting [request.json()] gives: the parsed body, or the rejection
    (body that is not JSON, body above the size limit), whose reason is kept
    as the text that a template literal renders for it. *)
Inductive JsonOutcome : Type :=
| JsonResolved (value : ES.JsonValue)
| JsonRejected (error : string).

Record ResponseProviderRequest : Type :=
  { json : JsonOutcome; userLocation : UserLocation }.

(** A header holds one string or a list of strings. *)
Inductive HeaderValue : Type :=
| Single (s : string)
| Multi (l : list string).

(** A headers object; the properties are in insertion order. *)
Definition Headers : Type := list (string * HeaderValue).

Fixpoint header (h : Headers) (name : string) : option HeaderValue :=
  match h with
  | [] => None
  | (k, v) :: rest => if String.eqb k name then Some v else header rest name
  end.

(** [h[name] = v]: an existing property is overwritten in place, a new one
    is added last. *)
Fixpoint set_header (h : Headers) (name : string) (v : HeaderValue) : Headers :=
  match h with
  | [] => [(name, v)]
  | (k, old) :: rest =>
      if String.eqb k name then (k, v) :: rest
      else (k, old) :: set_header rest name v
  end.

Record HttpResponse : Type :=
  { status : Z; headers : Headers; body : string }.

Definition createResponse (status : Z) (headers : Headers) (body : string)
    : HttpResponse :=
  {| status := status; headers := headers; body := body |}.

(** How the promise returned by the handler settles. *)
Inductive Promise (A : Type) : Type :=
| Resolved (a : A)
| Rejected (reason : ES.Exception).
Arguments Resolved {A} a.
Arguments Rejected {A} reason.

(** A cookie on which only the name and the value were set. *)
Record SetCookie : Type := { name : string; value : string }.

Definition toHeader (c : SetCookie) : string :=
  append (name c) (append "=" (value c)).

(** An argument of [logger.log] besides the format: the handler passes the
    method [error.toString] itself, not the text it would return. *)
Inductive LogArg : Type :=
| ErrorToStringMethod.

(** A line of the log, by the call that wrote it:
    [logger.log(`edgekv value: ${minimalAge}`)], where the text of the number
    is what the template literal makes of it, and
    [logger.log("something went wrong: %s", arg)]. *)
Inductive LogLine : Type :=
| EdgekvValue (minimalAge : Z)
| SomethingWentWrong (arg : LogArg).

End EW.

(** ** The policy store client *)

Module EdgeKV.

(** Modelled from the spec: the policy store client [edgekv.js] is imported by
    [main.ts] and is not part of the sources. The specification (4.2) gives
    its contract: a read of the item keyed by the country code in a namespace
    and a group; a read that exceeds the timeout is retried up to
    [num_retries_on_timeout] more times; the call fails when every attempt
    timed out, when the item is absent, or when the stored value is not
    interpretable as an integer. *)
Record Options : Type :=
  { namespace : string; group : string; num_retries_on_timeout : nat }.

(** One read of the store: the time it took and the item found, if any. *)
Record Read : Type := { latency : Z; item : option ES.JsonValue }.

(** The store as the client sees it: the n-th read of a key. *)
Definition Store : Type := string -> string -> string -> nat -> Read.

Inductive Failure : Type :=
| TimedOut
| MissingKey
| NotAnInteger.

Inductive Result : Type :=
| Ok (n : Z)
| Failed (why : Failure).

(** Modelled from the spec: a stored value is "interpretable as an integer"
    when it is a JSON number without a fractional part. *)
Definition as_integer (v : ES.JsonValue) : option Z :=
  match v with
  | ES.JNumber (ES.Finite q) =>
      if Qnum q mod Zpos (Qden q) =? 0 then Some (Qnum q / Zpos (Qden q))
      else None
  | _ => None
  end.

(** Modelled from the spec: "the stored value is absent or not interpretable
    as an integer, the call fails". *)
Definition interpret (r : Read) : Result :=
  match item r with
  | None => Failed MissingKey
  | Some v =>
      match as_integer v with
      | Some n => Ok n
      | None => Failed NotAnInteger
      end
  end.

(** Modelled from the spec: "if the read exceeds the timeout, retry up to the
    configured retry count; if all attempts fail [...] the call fails". *)
Fixpoint read_item (store : Store) (o : Options) (key : string) (timeout : Z)
    (retries : nat) (attempt : nat) : Result :=
  let r := store (namespace o) (group o) key attempt in
  if timeout <? latency r then
    match retries with
    | O => Failed TimedOut
    | S fewer => read_item store o key timeout fewer (S attempt)
    end
  else interpret r.

(** Modelled from the spec: [lookupMinimumAge], the call [getJson] of the
    handler with the item key and the timeout of the call. *)
Definition getJson (store : Store) (o : Options) (item : string) (timeout : Z)
    : Result :=
  read_item store o item timeout (num_retries_on_timeout o) 0%nat.

End EdgeKV.

(** ** [main.ts] *)

Import ES EW.

Definition edgeKv2fa : EdgeKV.Options :=
  {| EdgeKV.namespace := "jgrinwiskv";
     EdgeKV.group := "age_gate";
     EdgeKV.num_retries_on_timeout := 2 |}.

Definition edgeKvTimeout : Z := 500.

(** The result payload (the interface [Response] of the handler). *)
Record Response : Type :=
  { age : number; country : string; message : string }.

(** JSON.stringify of a [Response]: the three properties in the order in
    which the object literal lists them. *)
Definition JSON_stringify (r : Response) : string :=
  append "{"
    (append (QuoteJSONString "age") (append ":" (append (stringify_number (age r))
    (append ","
    (append (QuoteJSONString "country") (append ":" (append (QuoteJSONString (country r))
    (append ","
    (append (QuoteJSONString "message") (append ":" (append (QuoteJSONString (message r))
    "}"))))))))))).

(** [response.message = m]. *)
Definition set_message (response : Response) (m : string) : Response :=
  {| age := age response; country := country response; message := m |}.

(** What surrounds one call of the handler: the instant [new Date()] reads,
    the store behind the client, and the lines logged so far. *)
Record World : Type :=
  { now : Z; store : EdgeKV.Store; log : list LogLine }.

Definition logged (l : LogLine) (w : World) : World :=
  {| now := now w; store := store w; log := (log w ++ [l])%list |}.

Definition calculateAge (now : Z) (birthdate : Date) : number :=
  let diff := number_sub (Num now) (getTime birthdate) in
  let ageInYears := number_sub (getUTCFullYear (Date_of_number diff)) (Num 1970) in
  ageInYears.

Definition responseHeader : Headers :=
  [ ("Powered-By", Multi ["Akamai EdgeWorkers: 0.0.16"]);
    ("content-type", Multi ["application/json"]) ]%string.

(** [request.userLocation.country || 'NL']: undefined and the empty string are
    both falsy. *)
Definition countryCode_of (request : ResponseProviderRequest) : string :=
  match EW.country (userLocation request) with
  | None => "NL"
  | Some c => if String.eqb c "" then "NL" else c
  end.

(** The try block around the lookup: the value found replaces the default,
    a failure is logged and leaves it. *)
Definition lookup_minimalAge (countryCode : string) (minimalAge : Z) (w : World)
    : Z * World :=
  match EdgeKV.getJson (store w) edgeKv2fa countryCode edgeKvTimeout with
  | EdgeKV.Ok found =>
      (found, logged (EdgekvValue found) w)
  | EdgeKV.Failed _ =>
      (minimalAge, logged (SomethingWentWrong ErrorToStringMethod) w)
  end.

(** The minimal age with which the comparison is made: the default of the
    handler, 18, after the try block. *)
Definition effective_minimalAge (countryCode : string) (w : World) : Z :=
  fst (lookup_minimalAge countryCode 18 w).

(** The last part of the handler, from the comparison on. *)
Definition respond (age : number) (minimalAge : Z) (response : Response)
    : HttpResponse :=
  let '(responseHeader, response) :=
    if number_ge age (Num minimalAge) then
      let cookie := {| name := "old_enough"; value := "yes" |} in
      (set_header responseHeader "set-cookie" (Single (toHeader cookie)),
       set_message response "Welcome, have a drink.")
    else (responseHeader, response) in
  createResponse 200 responseHeader (JSON_stringify response).

Section Handler.

(** The engine's part of [new Date(value)], see [ES.new_Date]. *)
Variable engineDate : JsonValue -> number.

Definition responseProvider (request : ResponseProviderRequest) (w : World)
    : Promise HttpResponse * World :=
  match json request with
  | JsonRejected error =>
      let errorMessage :=
        append "{" (append dquote (append "error" (append dquote (append ": "
          (append dquote (append error (append dquote "}"))))))) in
      (Resolved (createResponse 503 responseHeader errorMessage), w)
  | JsonResolved jsonBody =>
      let countryCode := countryCode_of request in
      match get_property jsonBody "birthday" with
      | Throw e => (Rejected e, w)
      | Normal birthday =>
          match Date_constructor engineDate birthday with
          | Throw e => (Rejected e, w)
          | Normal birthdate =>
              let age := calculateAge (now w) birthdate in
              let minimalAge := 18 in
              let response :=
                {| age := age; country := countryCode;
                   message := "You are too young to drink!" |} in
              let '(minimalAge, w) := lookup_minimalAge countryCode minimalAge w in
              (Resolved (respond age minimalAge response), w)
          end
      end
  end.

End Handler.

(** ** The failures of a lookup, in the words of the specification *)

(** The n-th read the client of the handler makes for a key. *)
Definition reading (s : EdgeKV.Store) (key : string) (i : nat) : EdgeKV.Read :=
  s (EdgeKV.namespace edgeKv2fa) (EdgeKV.group edgeKv2fa) key i.

(** The read exceeds the timeout of the handler. *)
Definition late (s : EdgeKV.Store) (key : string) (i : nat) : Prop :=
  edgeKvTimeout < EdgeKV.latency (reading s key i).

(** A lookup fails when every one of the three attempts (one read and two
    retries) timed out; or when the first attempt that answered in time
    found no item, or found a value that is not an integer. *)
Inductive lookup_fails (s : EdgeKV.Store) (key : string) : EdgeKV.Failure -> Prop :=
| timeout_after_all_retries :
    late s key 0 -> late s key 1 -> late s key 2 ->
    lookup_fails s key EdgeKV.TimedOut
| missing_key (i : nat) :
    (i <= 2)%nat -> (forall j, (j < i)%nat -> late s key j) -> ~ late s key i ->
    EdgeKV.item (reading s key i) = None ->
    lookup_fails s key EdgeKV.MissingKey
| value_not_an_integer (i : nat) (v : JsonValue) :
    (i <= 2)%nat -> (forall j, (j < i)%nat -> late s key j) -> ~ late s key i ->
    EdgeKV.item (reading s key i) = Some v -> EdgeKV.as_integer v = None ->
    lookup_fails s key EdgeKV.NotAnInteger.

(** ** The age calculator as the specification words it (4.1)

    "Compute the elapsed duration in milliseconds between now and the
    birthdate, reinterpret that duration as an absolute calendar date
    (anchored at a fixed epoch year), and subtract the epoch year." The
    calendar date is found the plain way: starting on 1 January 1970, whole
    Gregorian years are stepped over, forwards or backwards, until the day
    falls inside the year reached. *)

Module Spec.

Definition epochYear : Z := 1970.

Definition leap (year : Z) : bool :=
  if year mod 400 =? 0 then true
  else if year mod 100 =? 0 then false
  else year mod 4 =? 0.

Definition year_length (year : Z) : Z := if leap year then 366 else 365.

(** [days] counts from 1 January of [year] and is not negative. *)
Fixpoint year_forward (fuel : nat) (year days : Z) : Z :=
  match fuel with
  | O => year
  | S fuel' =>
      if days <? year_length year then year
      else year_forward fuel' (year + 1) (days - year_length year)
  end.

(** [days] counts from 1 January of [year] and lies before the end of [year]. *)
Fixpoint year_backward (fuel : nat) (year days : Z) : Z :=
  match fuel with
  | O => year
  | S fuel' =>
      if 0 <=? days then year
      else year_backward fuel' (year - 1) (days + year_length (year - 1))
  end.

(** The UTC year of the calendar date that lies [duration] milliseconds
    from the start of the epoch year. *)
Definition utc_year (duration : Z) : Z :=
  let days := duration / 86400000 in
  let fuel := Z.to_nat (Z.abs days / 365 + 1) in
  if 0 <=? days then year_forward fuel epochYear days
  else year_backward fuel epochYear days.

Definition calculateAge (now birthdate : Z) : Z :=
  let elapsed := now - birthdate in
  utc_year elapsed - epochYear.

End Spec.

(** ** Inputs used to exercise the statements *)

Module Sample.

(** An engine that recognises nothing beyond what ECMA-262 fixes. *)
Definition strictEngine : JsonValue -> number := fun _ => NaN.

(** 2024-06-15T00:00:00Z. *)
Definition mid2024 : Z := 1718409600000.

Definition answering (v : JsonValue) : EdgeKV.Store :=
  fun _ _ _ _ => {| EdgeKV.latency := 20; EdgeKV.item := Some v |}.

Definition integer (n : Z) : JsonValue := JNumber (Finite (inject_Z n)).

(** A store whose every read takes longer than the timeout. *)
Definition slowStore : EdgeKV.Store :=
  fun _ _ _ _ => {| EdgeKV.latency := 900; EdgeKV.item := Some (integer 21) |}.

Definition emptyStore : EdgeKV.Store :=
  fun _ _ _ _ => {| EdgeKV.latency := 20; EdgeKV.item := None |}.

Definition world (s : EdgeKV.Store) : World :=
  {| now := mid2024; store := s; log := [] |}.

Definition born (day : string) (place : option string) : ResponseProviderRequest :=
  {| json := JsonResolved (JObject [("birthday"%string, JString day)]);
     userLocation := {| EW.country := place |} |}.

Definition withBody (v : JsonValue) : ResponseProviderRequest :=
  {| json := JsonResolved v; userLocation := {| EW.country := Some "US"%string |} |}.

End Sample.

(** ** Reading an answer back

    A reader for the documents [JSON_stringify] writes: it is how the
    statements below say what a client finds in the body of an answer. *)

Module Decode.

Definition bind {A B : Type} (o : option A) (f : A -> option B) : option B :=
  match o with
  | Some a => f a
  | None => None
  end.

Notation "x <- o ;; k" := (bind o (fun x => k))
  (at level 61, o at next level, right associativity).
Notation "' p <- o ;; k" := (bind o (fun p => k))
  (at level 61, p pattern, o at next level, right associativity).

(** [s] without the prefix [p], if it starts with it. *)
Fixpoint expect (p s : string) : option string :=
  match p, s with
  | EmptyString, _ => Some s
  | String a p', String b s' => if Ascii.eqb a b then expect p' s' else None
  | String _ _, EmptyString => None
  end.

(** The character a two-character escape stands for. *)
Definition simple_escape (e : ascii) : option ascii :=
  let n := nat_of_ascii e in
  if Nat.eqb n 34 then Some (ascii_of_nat 34)
  else if Nat.eqb n 92 then Some (ascii_of_nat 92)
  else if Nat.eqb n 98 then Some (ascii_of_nat 8)
  else if Nat.eqb n 116 then Some (ascii_of_nat 9)
  else if Nat.eqb n 110 then Some (ascii_of_nat 10)
  else if Nat.eqb n 102 then Some (ascii_of_nat 12)
  else if Nat.eqb n 114 then Some (ascii_of_nat 13)
  else None.

Definition hex_value (c : ascii) : option nat :=
  let n := nat_of_ascii c in
  if Nat.leb 48 n && Nat.leb n 57 then Some (n - 48)%nat
  else if Nat.leb 97 n && Nat.leb n 102 then Some (n - 87)%nat
  else None.

Definition push (c : ascii) (o : option (string * string))
    : option (string * string) :=
  '(text, rest) <- o ;; Some (String c text, rest).

(** A string literal from after its opening quote on: the text it stands
    for, and what follows its closing quote. *)
Fixpoint string_literal (s : string) : option (string * string) :=
  match s with
  | EmptyString => None
  | String c rest =>
      if Nat.eqb (nat_of_ascii c) 34 then Some (EmptyString, rest)
      else if Nat.eqb (nat_of_ascii c) 92 then
        match rest with
        | EmptyString => None
        | String e rest1 =>
            match simple_escape e with
            | Some d => push d (string_literal rest1)
            | None =>
                match rest1 with
                | String z1 (String z2 (String h (String l rest2))) =>
                    if Ascii.eqb e "u" && Ascii.eqb z1 "0" && Ascii.eqb z2 "0" then
                      match hex_value h, hex_value l with
                      | Some x, Some y =>
                          push (ascii_of_nat (16 * x + y)) (string_literal rest2)
                      | _, _ => None
                      end
                    else None
                | _ => None
                end
            end
        end
      else push c (string_literal rest)
  end.

(** The text before the first comma, and what follows the comma. *)
Fixpoint until_comma (s : string) : option (string * string) :=
  match s with
  | EmptyString => None
  | String c rest =>
      if Ascii.eqb c "," then Some (EmptyString, rest)
      else push c (until_comma rest)
  end.

(** A number as [JSON.stringify] prints an age: null or a decimal integer. *)
Definition number_literal (s : string) : option number :=
  if String.eqb s "null" then Some NaN
  else d <- NilZero.int_of_string s ;; Some (Num (Z.of_int d)).

Definition payload (s : string) : option Response :=
  s <- expect (append "{" (append (QuoteJSONString "age") ":")) s ;;
  '(a, s) <- until_comma s ;;
  a <- number_literal a ;;
  s <- expect (append (QuoteJSONString "country") (append ":" dquote)) s ;;
  '(c, s) <- string_literal s ;;
  s <- expect (append "," (append (QuoteJSONString "message") (append ":" dquote))) s ;;
  '(m, s) <- string_literal s ;;
  if String.eqb s "}" then Some {| age := a; country := c; message := m |}
  else None.

(** White space between the tokens of a document. *)
Fixpoint skip_space (s : string) : string :=
  match s with
  | String c rest =>
      let n := nat_of_ascii c in
      if Nat.eqb n 32 || Nat.eqb n 9 || Nat.eqb n 10 || Nat.eqb n 13
      then skip_space rest else s
  | EmptyString => s
  end.

(** The message of a document of the shape [{"error": "<message>"}]:
    an object whose one property, error, is a string. *)
Definition error_message (s : string) : option string :=
  s <- expect "{" (skip_space s) ;;
  s <- expect (QuoteJSONString "error") (skip_space s) ;;
  s <- expect ":" (skip_space s) ;;
  s <- expect dquote (skip_space s) ;;
  '(m, s) <- string_literal s ;;
  s <- expect "}" (skip_space s) ;;
  if String.eqb (skip_space s) EmptyString then Some m else None.

(** A character that a string literal holds as it is. *)
Definition plain (c : ascii) : bool :=
  let n := nat_of_ascii c in
  negb (Nat.eqb n 34) && negb (Nat.eqb n 92) && negb (Nat.ltb n 32).

Fixpoint all_plain (s : string) : bool :=
  match s with
  | EmptyString => true
  | String c rest => plain c && all_plain rest
  end.

End Decode.

(** ** More inputs for the statements *)

Module Sample2.

(** The answer a call resolved with. *)
Definition answer (out : Promise HttpResponse * World) : HttpResponse :=
  match fst out with
  | Resolved r => r
  | Rejected _ => createResponse 0 [] EmptyString
  end.

(** A store that differs from [Sample.answering (Sample.integer 21)] outside
    the reads of the handler only. *)
Definition elsewhere : EdgeKV.Store :=
  fun ns _ _ i =>
    if String.eqb ns "jgrinwiskv" && Nat.leb i 2
    then {| EdgeKV.latency := 20; EdgeKV.item := Some (Sample.integer 21) |}
    else {| EdgeKV.latency := 700; EdgeKV.item := None |}.

(** The text of the rejection of [request.json()] for the body [not json],
    as V8 words it: it holds two double quotes. *)
Definition notJsonError : string :=
  append "SyntaxError: Unexpected token 'o', "
    (append dquote (append "not json" (append dquote " is not valid JSON"))).

(** A birthday whose own property shadows [toString]. *)
Definition shadowed : JsonValue :=
  JObject [("toString"%string, JNumber (Finite (inject_Z 0)))].

(** A country code that the serialization has to escape. *)
Definition oddCountry : string :=
  String (ascii_of_nat 34) (String "U" (String (ascii_of_nat 92) (String "S" EmptyString))).

End Sample2.

(** * Properties *)

(** ** Time values and years *)

Ltac euclid := Z.to_euclidean_division_equations; lia.

Lemma DayFromYear_step (y : Z) :
  DayFromYear (y + 1) = DayFromYear y + DaysInYear y.
Proof.
  unfold DayFromYear, DaysInYear, InLeapYear.
  destruct (Z.eqb_spec (y mod 4) 0), (Z.eqb_spec (y mod 100) 0),
    (Z.eqb_spec (y mod 400) 0); cbn [andb orb negb]; euclid.
Qed.

Lemma DaysInYear_bounds (y : Z) : 365 <= DaysInYear y <= 366.
Proof. unfold DaysInYear. destruct (InLeapYear y); lia. Qed.

Lemma DayFromYear_lt (a b : Z) : a < b -> DayFromYear a < DayFromYear b.
Proof. unfold DayFromYear. intros. euclid. Qed.

Lemma DayFromYear_le (a b : Z) : a <= b -> DayFromYear a <= DayFromYear b.
Proof. unfold DayFromYear. intros. euclid. Qed.

Lemma DayFromYear_epoch : DayFromYear 1970 = 0.
Proof. reflexivity. Qed.

(** A day lies in one year only. *)
Lemma year_of_day_unique (d y y' : Z) :
  DayFromYear y <= d < DayFromYear (y + 1) ->
  DayFromYear y' <= d < DayFromYear (y' + 1) ->
  y = y'.
Proof.
  intros H H'.
  destruct (Z.lt_trichotomy y y') as [L | [E | L]]; [ | exact E | ].
  - pose proof (DayFromYear_le (y + 1) y'). lia.
  - pose proof (DayFromYear_le (y' + 1) y). lia.
Qed.

Lemma YearFromTime_day (t : Z) :
  DayFromYear (YearFromTime t) <= Day t < DayFromYear (YearFromTime t + 1).
Proof.
  unfold YearFromTime. cbv zeta.
  generalize (Day t) as d. intro d.
  set (y := 1970 + 400 * d / 146097).
  assert (Hy : 146097 * (y - 1970) <= 400 * d < 146097 * (y - 1970) + 146097)
    by (subst y; euclid).
  clearbody y.
  destruct (Z.ltb_spec d (DayFromYear y)) as [H | H].
  - replace (y - 1 + 1) with y by lia.
    split; [ | exact H ]. unfold DayFromYear in *. euclid.
  - destruct (Z.leb_spec (DayFromYear (y + 1)) d) as [H' | H'].
    + split; [ exact H' | ]. unfold DayFromYear in *. euclid.
    + lia.
Qed.

(** [YearFromTime] is the function of ECMA-262: the largest year that
    starts at or before [t]. *)
Lemma YearFromTime_largest (t : Z) :
  TimeFromYear (YearFromTime t) <= t /\
  forall y, TimeFromYear y <= t -> y <= YearFromTime t.
Proof.
  pose proof (YearFromTime_day t) as [Lo Hi].
  unfold TimeFromYear, Day, msPerDay in *. split.
  - euclid.
  - intros y Hy.
    destruct (Z.le_gt_cases y (YearFromTime t)) as [ | G]; [ assumption | ].
    pose proof (DayFromYear_le (YearFromTime t + 1) y). euclid.
Qed.

Lemma YearFromTime_sign (t : Z) : 1970 <= YearFromTime t <-> 0 <= t.
Proof.
  pose proof (YearFromTime_day t) as [Lo Hi].
  unfold Day, msPerDay in *. split; intro H.
  - pose proof (DayFromYear_le 1970 (YearFromTime t) H) as M.
    rewrite DayFromYear_epoch in M. euclid.
  - destruct (Z.le_gt_cases 1970 (YearFromTime t)) as [ | G]; [ assumption | ].
    pose proof (DayFromYear_le (YearFromTime t + 1) 1970) as M.
    rewrite DayFromYear_epoch in M. euclid.
Qed.

(** ** The calendar walk of the specification *)

Lemma leap_InLeapYear (y : Z) : Spec.leap y = InLeapYear y.
Proof.
  unfold Spec.leap, InLeapYear.
  destruct (Z.eqb_spec (y mod 4) 0), (Z.eqb_spec (y mod 100) 0),
    (Z.eqb_spec (y mod 400) 0); cbn [andb orb negb]; try reflexivity; euclid.
Qed.

Lemma year_length_DaysInYear (y : Z) : Spec.year_length y = DaysInYear y.
Proof. unfold Spec.year_length, DaysInYear. now rewrite leap_InLeapYear. Qed.

Lemma year_forward_finds (fuel : nat) :
  forall year days,
    0 <= days < 365 * Z.of_nat fuel ->
    let r := Spec.year_forward fuel year days in
    DayFromYear r <= DayFromYear year + days < DayFromYear (r + 1).
Proof.
  induction fuel as [ | fuel IH]; intros year days Hd; [ lia | ].
  cbn [Spec.year_forward]. rewrite year_length_DaysInYear.
  pose proof (DaysInYear_bounds year).
  destruct (Z.ltb_spec days (DaysInYear year)) as [Lt | Ge]; cbv zeta.
  - rewrite DayFromYear_step. lia.
  - specialize (IH (year + 1) (days - DaysInYear year)).
    rewrite DayFromYear_step in IH.
    replace (DayFromYear year + DaysInYear year + (days - DaysInYear year))
      with (DayFromYear year + days) in IH by lia.
    apply IH. lia.
Qed.

Lemma year_backward_finds (fuel : nat) :
  forall year days,
    days < DaysInYear year ->
    - days <= 365 * Z.of_nat fuel ->
    let r := Spec.year_backward fuel year days in
    DayFromYear r <= DayFromYear year + days < DayFromYear (r + 1).
Proof.
  induction fuel as [ | fuel IH]; intros year days Hi Hf; cbv zeta.
  - cbn [Spec.year_backward]. rewrite DayFromYear_step. lia.
  - cbn [Spec.year_backward].
    destruct (Z.leb_spec 0 days) as [Nonneg | Neg].
    + rewrite DayFromYear_step. lia.
    + rewrite year_length_DaysInYear.
      pose proof (DaysInYear_bounds (year - 1)).
      pose proof (DayFromYear_step (year - 1)) as St.
      replace (year - 1 + 1) with year in St by lia.
      specialize (IH (year - 1) (days + DaysInYear (year - 1))).
      replace (DayFromYear (year - 1) + (days + DaysInYear (year - 1)))
        with (DayFromYear year + days) in IH by lia.
      apply IH; lia.
Qed.

(** The walk ends in the year ECMA-262 assigns to the time value. *)
Lemma utc_year_YearFromTime (t : Z) : Spec.utc_year t = YearFromTime t.
Proof.
  apply (year_of_day_unique (Day t)); [ | apply YearFromTime_day ].
  unfold Spec.utc_year, Spec.epochYear. fold msPerDay. fold (Day t).
  generalize (Day t) as d. intro d. cbv zeta.
  assert (Hf : Z.of_nat (Z.to_nat (Z.abs d / 365 + 1)) = Z.abs d / 365 + 1)
    by (apply Z2Nat.id; euclid).
  destruct (Z.leb_spec 0 d) as [Nonneg | Neg].
  - pose proof (year_forward_finds (Z.to_nat (Z.abs d / 365 + 1)) 1970 d) as F.
    rewrite DayFromYear_epoch in F. cbv zeta in F. apply F.
    rewrite Hf. euclid.
  - pose proof (year_backward_finds (Z.to_nat (Z.abs d / 365 + 1)) 1970 d) as B.
    rewrite DayFromYear_epoch in B. cbv zeta in B. apply B.
    + pose proof (DaysInYear_bounds 1970). lia.
    + rewrite Hf. euclid.
Qed.

(** A string [YYYY-MM-DD] that names a calendar day is read as a midnight of
    the year it names. *)
Lemma MakeDay_in_year (y m d : Z) :
  1 <= m <= 12 -> 1 <= d <= DaysInMonth y m ->
  YearFromTime (msPerDay * MakeDay y m d) = y.
Proof.
  intros Hm Hd.
  apply (year_of_day_unique (Day (msPerDay * MakeDay y m d)));
    [ apply YearFromTime_day | ].
  replace (Day (msPerDay * MakeDay y m d)) with (MakeDay y m d)
    by (unfold Day, msPerDay; euclid).
  rewrite DayFromYear_step. unfold MakeDay, DaysInYear.
  assert (M : m = 1 \/ m = 2 \/ m = 3 \/ m = 4 \/ m = 5 \/ m = 6 \/ m = 7 \/
              m = 8 \/ m = 9 \/ m = 10 \/ m = 11 \/ m = 12) by lia.
  unfold DaysInMonth in Hd.
  repeat (destruct M as [-> | M]); [ .. | subst m ];
    match goal with
    | |- context [Z.to_nat ?e] =>
        let n := eval vm_compute in (Z.to_nat e) in change (Z.to_nat e) with n
    end;
    cbv [days_before DaysInMonth Z.eqb Pos.eqb orb Z.of_nat Pos.of_succ_nat
         Pos.succ] in *;
    destruct (InLeapYear y); lia.
Qed.

(** ** The policy store client *)

Section Lookup.

Variable s : EdgeKV.Store.
Variable key : string.

Lemma interpret_failed (i : nat) (why : EdgeKV.Failure) :
  (i <= 2)%nat -> (forall j, (j < i)%nat -> late s key j) -> ~ late s key i ->
  EdgeKV.interpret (reading s key i) = EdgeKV.Failed why -> lookup_fails s key why.
Proof.
  intros Hi Hj Hl. unfold EdgeKV.interpret.
  destruct (EdgeKV.item (reading s key i)) as [v | ] eqn:It.
  - destruct (EdgeKV.as_integer v) eqn:Int; [ discriminate | ].
    intros [= <-]. now apply (value_not_an_integer s key i v).
  - intros [= <-]. now apply (missing_key s key i).
Qed.

Lemma getJson_three_reads :
  EdgeKV.getJson s edgeKv2fa key edgeKvTimeout =
  if edgeKvTimeout <? EdgeKV.latency (reading s key 0) then
    if edgeKvTimeout <? EdgeKV.latency (reading s key 1) then
      if edgeKvTimeout <? EdgeKV.latency (reading s key 2) then
        EdgeKV.Failed EdgeKV.TimedOut
      else EdgeKV.interpret (reading s key 2)
    else EdgeKV.interpret (reading s key 1)
  else EdgeKV.interpret (reading s key 0).
Proof. reflexivity. Qed.

Lemma late_true (i : nat) :
  late s key i -> (edgeKvTimeout <? EdgeKV.latency (reading s key i)) = true.
Proof. intro L. apply Z.ltb_lt, L. Qed.

Lemma late_false (i : nat) :
  ~ late s key i -> (edgeKvTimeout <? EdgeKV.latency (reading s key i)) = false.
Proof. unfold late. intro L. apply Z.ltb_ge. lia. Qed.

Lemma getJson_first_in_time (i : nat) :
  (i <= 2)%nat -> (forall j, (j < i)%nat -> late s key j) -> ~ late s key i ->
  EdgeKV.getJson s edgeKv2fa key edgeKvTimeout = EdgeKV.interpret (reading s key i).
Proof.
  intros Hi Hj Hl. rewrite getJson_three_reads.
  destruct i as [ | [ | [ | i]]]; [ | | | lia ];
    repeat (rewrite late_true by (apply Hj; lia)); now rewrite late_false.
Qed.

Lemma getJson_failed (why : EdgeKV.Failure) :
  lookup_fails s key why ->
  EdgeKV.getJson s edgeKv2fa key edgeKvTimeout = EdgeKV.Failed why.
Proof.
  intros [L0 L1 L2 | i Hi Hj Hl It | i v Hi Hj Hl It Int].
  - rewrite getJson_three_reads. now rewrite !late_true.
  - rewrite (getJson_first_in_time i) by assumption.
    unfold EdgeKV.interpret. now rewrite It.
  - rewrite (getJson_first_in_time i) by assumption.
    unfold EdgeKV.interpret. now rewrite It, Int.
Qed.

Lemma getJson_failed_inv (why : EdgeKV.Failure) :
  EdgeKV.getJson s edgeKv2fa key edgeKvTimeout = EdgeKV.Failed why ->
  lookup_fails s key why.
Proof.
  rewrite getJson_three_reads.
  destruct (Z.ltb_spec edgeKvTimeout (EdgeKV.latency (reading s key 0))) as [L0 | L0];
    [ destruct (Z.ltb_spec edgeKvTimeout (EdgeKV.latency (reading s key 1))) as [L1 | L1];
      [ destruct (Z.ltb_spec edgeKvTimeout (EdgeKV.latency (reading s key 2))) as [L2 | L2]
      | ]
    | ].
  - intros [= <-]. now apply timeout_after_all_retries.
  - apply interpret_failed; [ lia | | unfold late; lia ].
    intros j Hj. assert (j = 0 \/ j = 1)%nat as [-> | ->] by lia; assumption.
  - apply interpret_failed; [ lia | | unfold late; lia ].
    intros j Hj. assert (j = 0)%nat as -> by lia. assumption.
  - apply interpret_failed; [ lia | | unfold late; lia ].
    intros j Hj. lia.
Qed.

End Lookup.

Lemma read_item_ext (s s' : EdgeKV.Store) (o : EdgeKV.Options) (key : string)
    (timeout : Z) (retries : nat) :
  (forall ns g k i, s ns g k i = s' ns g k i) ->
  forall attempt,
    EdgeKV.read_item s o key timeout retries attempt
    = EdgeKV.read_item s' o key timeout retries attempt.
Proof.
  intro Same. induction retries as [ | retries IH]; intro attempt;
    cbn [EdgeKV.read_item]; rewrite Same; [ reflexivity | ].
  now rewrite IH.
Qed.

(** ** The handler *)

Lemma lookup_minimalAge_world (c : string) (m : Z) (w : World) :
  now (snd (lookup_minimalAge c m w)) = now w /\
  store (snd (lookup_minimalAge c m w)) = store w.
Proof.
  unfold lookup_minimalAge.
  destruct (EdgeKV.getJson (store w) edgeKv2fa c edgeKvTimeout); split; reflexivity.
Qed.

Lemma lookup_minimalAge_ext (c : string) (m : Z) (w w' : World) :
  (forall ns g k i, store w ns g k i = store w' ns g k i) ->
  fst (lookup_minimalAge c m w) = fst (lookup_minimalAge c m w').
Proof.
  intro Same. unfold lookup_minimalAge, EdgeKV.getJson.
  rewrite (read_item_ext (store w) (store w')) by exact Same.
  destruct (EdgeKV.read_item (store w') edgeKv2fa c edgeKvTimeout
              (EdgeKV.num_retries_on_timeout edgeKv2fa) 0); reflexivity.
Qed.

Lemma respond_status (a : number) (m : Z) (r : Response) :
  status (respond a m r) = 200.
Proof. unfold respond. destruct (number_ge a (Num m)); reflexivity. Qed.

Lemma respond_old_enough (a : number) (m : Z) (r : Response) :
  number_ge a (Num m) = true ->
  respond a m r =
  createResponse 200
    (responseHeader ++ [("set-cookie"%string, Single "old_enough=yes")])
    (JSON_stringify (set_message r "Welcome, have a drink.")).
Proof. unfold respond. intros ->. reflexivity. Qed.

Lemma respond_too_young (a : number) (m : Z) (r : Response) :
  number_ge a (Num m) = false ->
  respond a m r = createResponse 200 responseHeader (JSON_stringify r).
Proof. unfold respond. intros ->. reflexivity. Qed.

Lemma get_property_throws (v : JsonValue) (key : string) (e : Exception) :
  get_property v key = Throw e <-> v = JNull /\ e = TypeError.
Proof.
  split.
  - destruct v; cbn [get_property]; try discriminate. intros [= <-]. now split.
  - intros [-> ->]. reflexivity.
Qed.

(** [new Date(value)] completes exactly when the conversion of the value
    does, and then gives the Date [new_Date]. *)
Lemma Date_constructor_normal (engineDate : JsonValue -> number)
    (value : option JsonValue) (d : Date) :
  Date_constructor engineDate value = Normal d <->
  d = new_Date engineDate value /\
  forall v, value = Some v -> ToPrimitive_throws v = false.
Proof.
  unfold Date_constructor. destruct value as [v | ].
  - destruct (ToPrimitive_throws v) eqn:T; split.
    + discriminate.
    + intros [_ H]. specialize (H v eq_refl). congruence.
    + intros [= <-]. split; [ reflexivity | ]. intros v' [= <-]. exact T.
    + now intros [-> _].
  - split.
    + intros [= <-]. split; [ reflexivity | discriminate ].
    + now intros [-> _].
Qed.

Lemma Date_constructor_throws (engineDate : JsonValue -> number)
    (value : option JsonValue) (e : Exception) :
  Date_constructor engineDate value = Throw e <->
  e = TypeError /\ exists v, value = Some v /\ ToPrimitive_throws v = true.
Proof.
  unfold Date_constructor. destruct value as [v | ].
  - destruct (ToPrimitive_throws v) eqn:T; split.
    + intros [= <-]. split; [ reflexivity | ]. now exists v.
    + now intros [-> _].
    + discriminate.
    + intros [_ (v' & [= <-] & T')]. congruence.
  - split; [ discriminate | ]. now intros [_ (v & ? & _)].
Qed.

Section HandlerProperties.

Variable engineDate : JsonValue -> number.

(** A body that parses, and whose [birthday] can be read and made a Date,
    is answered by [respond] with the age of the body and the minimal age of
    the lookup. *)
Lemma responseProvider_parsed (request : ResponseProviderRequest) (w : World)
    (jsonBody : JsonValue) (birthday : option JsonValue) (birthdate : Date) :
  json request = JsonResolved jsonBody ->
  get_property jsonBody "birthday" = Normal birthday ->
  Date_constructor engineDate birthday = Normal birthdate ->
  responseProvider engineDate request w =
  (Resolved
     (respond (calculateAge (now w) birthdate)
        (effective_minimalAge (countryCode_of request) w)
        {| age := calculateAge (now w) birthdate;
           country := countryCode_of request;
           message := "You are too young to drink!" |}),
   snd (lookup_minimalAge (countryCode_of request) 18 w)).
Proof.
  intros Body Birthday Converts. unfold responseProvider, effective_minimalAge.
  rewrite Body, Birthday, Converts. cbv zeta.
  destruct (lookup_minimalAge (countryCode_of request) 18 w); reflexivity.
Qed.

(** How a call settles, by the body of the request. *)
Lemma responseProvider_cases (request : ResponseProviderRequest) (w : World) :
  (exists error,
     json request = JsonRejected error /\
     exists body,
       responseProvider engineDate request w
       = (Resolved (createResponse 503 responseHeader body), w)) \/
  (json request = JsonResolved JNull /\
   responseProvider engineDate request w = (Rejected TypeError, w)) \/
  (exists jsonBody v,
     json request = JsonResolved jsonBody /\
     get_property jsonBody "birthday" = Normal (Some v) /\
     ToPrimitive_throws v = true /\
     responseProvider engineDate request w = (Rejected TypeError, w)) \/
  (exists jsonBody birthday birthdate,
     json request = JsonResolved jsonBody /\
     get_property jsonBody "birthday" = Normal birthday /\
     Date_constructor engineDate birthday = Normal birthdate /\
     responseProvider engineDate request w
     = (Resolved
          (respond (calculateAge (now w) birthdate)
             (effective_minimalAge (countryCode_of request) w)
             {| age := calculateAge (now w) birthdate;
                country := countryCode_of request;
                message := "You are too young to drink!" |}),
        snd (lookup_minimalAge (countryCode_of request) 18 w))).
Proof.
  destruct (json request) as [jsonBody | error] eqn:Body.
  - destruct (get_property jsonBody "birthday") as [birthday | e] eqn:Birthday.
    + destruct (Date_constructor engineDate birthday) as [birthdate | e] eqn:Converts.
      * right. right. right. exists jsonBody, birthday, birthdate.
        split; [ reflexivity | ]. split; [ exact Birthday | ].
        split; [ exact Converts | ].
        exact (responseProvider_parsed request w jsonBody birthday birthdate
                 Body Birthday Converts).
      * right. right. left.
        pose proof Converts as Why.
        apply Date_constructor_throws in Why as [-> (v & -> & T)].
        exists jsonBody, v. split; [ reflexivity | ]. split; [ exact Birthday | ].
        split; [ exact T | ].
        unfold responseProvider. now rewrite Body, Birthday, Converts.
    + right. left. apply get_property_throws in Birthday as [-> ->].
      split; [ reflexivity | ]. unfold responseProvider. now rewrite Body.
  - left. exists error. split; [ reflexivity | ].
    unfold responseProvider. rewrite Body. eexists. reflexivity.
Qed.

(** C1: when the age of the body compares greater than or equal to the
    effective minimal age, the answer has status 200, carries the header
    set-cookie: old_enough=yes and the message "Welcome, have a drink.";
    when the comparison does not hold, the answer has no set-cookie header
    and its message is "You are too young to drink!". The age is the one of
    the Date that [new Date] makes of the birthday of the body. *)
Theorem marker_iff_old_enough (request : ResponseProviderRequest) (w : World)
    (jsonBody : JsonValue) (birthday : option JsonValue) (birthdate : Date) :
  json request = JsonResolved jsonBody ->
  get_property jsonBody "birthday" = Normal birthday ->
  Date_constructor engineDate birthday = Normal birthdate ->
  let age := calculateAge (now w) birthdate in
  let minimalAge := effective_minimalAge (countryCode_of request) w in
  exists r,
    fst (responseProvider engineDate request w) = Resolved r /\
    status r = 200 /\
    if number_ge age (Num minimalAge) then
      header (headers r) "set-cookie" = Some (Single "old_enough=yes") /\
      body r = JSON_stringify
                 {| age := age; country := countryCode_of request;
                    message := "Welcome, have a drink." |}
    else
      header (headers r) "set-cookie" = None /\
      body r = JSON_stringify
                 {| age := age; country := countryCode_of request;
                    message := "You are too young to drink!" |}.
Proof.
  intros Body Birthday Converts age minimalAge.
  rewrite (responseProvider_parsed request w jsonBody birthday birthdate
             Body Birthday Converts).
  fold age minimalAge. eexists. split; [ reflexivity | ].
  split; [ apply respond_status | ].
  destruct (number_ge age (Num minimalAge)) eqn:Cmp.
  - rewrite respond_old_enough by exact Cmp. split; reflexivity.
  - rewrite respond_too_young by exact Cmp. split; reflexivity.
Qed.

(** A body that cannot be parsed as JSON is answered at once: the promise
    is resolved, not rejected, with status 503, the default headers
    (Powered-By and content-type) and a body built around the text of the
    failure, which is put between the quotes as it is; nothing else
    happens. *)
Lemma unparseable_body_gives_503 (error : string) (location : UserLocation)
    (w : World) :
  responseProvider engineDate
    {| json := JsonRejected error; userLocation := location |} w
  = (Resolved
       {| status := 503;
          headers :=
            [ ("Powered-By"%string, Multi ["Akamai EdgeWorkers: 0.0.16"%string]);
              ("content-type"%string, Multi ["application/json"%string]) ];
          body :=
            (string_of_list_ascii
               (map ascii_of_nat [123; 34; 101; 114; 114; 111; 114; 34; 58; 32; 34]%nat)
             ++ error
             ++ string_of_list_ascii (map ascii_of_nat [34; 125]%nat))%string |},
     w).
Proof.
  unfold responseProvider. cbn [json]. cbv zeta.
  unfold createResponse, responseHeader. do 2 f_equal.
Qed.

(** C2, at the body [not json]: the handler resolves with status 503 and the
    default headers, as the claim says, but the text of the failure holds
    double quotes and is not escaped, so the body does not read as a JSON
    document [{"error": "<message>"}]; escaped as the 200 answers are, it
    would. *)
Theorem error_text_is_not_escaped (location : UserLocation) (w : World) :
  exists r,
    responseProvider engineDate
      {| json := JsonRejected Sample2.notJsonError; userLocation := location |} w
    = (Resolved r, w) /\
    status r = 503 /\
    headers r = responseHeader /\
    Decode.error_message (body r) = None /\
    Decode.error_message
      (append "{" (append (QuoteJSONString "error") (append ": "
         (append (QuoteJSONString Sample2.notJsonError) "}"))))
    = Some Sample2.notJsonError.
Proof.
  eexists. split; [ reflexivity | ]. repeat split.
Qed.

(** C3: whenever the lookup for the country of the request fails, by a
    timeout of every attempt, by a missing key or by a stored value that is
    not an integer, the minimal age of the comparison is 18: the handler
    settles as it does in a world whose store answers 18, and a request
    with an age is answered as [respond] does with 18. *)
Theorem failed_lookup_means_18 (request : ResponseProviderRequest) (w : World)
    (why : EdgeKV.Failure) :
  lookup_fails (store w) (countryCode_of request) why ->
  effective_minimalAge (countryCode_of request) w = 18 /\
  (forall w',
     now w' = now w ->
     EdgeKV.getJson (store w') edgeKv2fa (countryCode_of request) edgeKvTimeout
     = EdgeKV.Ok 18 ->
     fst (responseProvider engineDate request w)
     = fst (responseProvider engineDate request w')) /\
  (forall jsonBody birthday birthdate,
     json request = JsonResolved jsonBody ->
     get_property jsonBody "birthday" = Normal birthday ->
     Date_constructor engineDate birthday = Normal birthdate ->
     fst (responseProvider engineDate request w)
     = Resolved
         (respond (calculateAge (now w) birthdate) 18
            {| age := calculateAge (now w) birthdate;
               country := countryCode_of request;
               message := "You are too young to drink!" |})).
Proof.
  intros Fails.
  assert (E : effective_minimalAge (countryCode_of request) w = 18).
  { unfold effective_minimalAge, lookup_minimalAge.
    now rewrite (getJson_failed _ _ _ Fails). }
  split; [ exact E | ]. split.
  - intros w' Instant Found.
    assert (E' : effective_minimalAge (countryCode_of request) w' = 18)
      by (unfold effective_minimalAge, lookup_minimalAge; now rewrite Found).
    destruct (responseProvider_cases request w)
      as [(error & B & body & R) | [(B & R) | [(jsonBody & v & B & P & T & R)
         | (jsonBody & birthday & birthdate & B & P & C & R)]]].
    + unfold responseProvider. now rewrite B.
    + unfold responseProvider. now rewrite B.
    + unfold responseProvider, Date_constructor. now rewrite B, P, T.
    + rewrite !(responseProvider_parsed request _ jsonBody birthday birthdate B P C).
      cbn [fst]. now rewrite E, E', Instant.
  - intros jsonBody birthday birthdate Body Birthday Converts.
    rewrite (responseProvider_parsed request w jsonBody birthday birthdate
               Body Birthday Converts).
    cbn [fst]. now rewrite E.
Qed.

(** C4, at the body [null]: the text null parses as JSON, reading its
    [birthday] throws outside of any try block, and the promise of the
    handler is rejected: there is no answer and no status. *)
Theorem null_body_rejects (location : UserLocation) (w : World) :
  responseProvider engineDate
    {| json := JsonResolved JNull; userLocation := location |} w
  = (Rejected TypeError, w).
Proof. reflexivity. Qed.

(** A body that parses, whose [birthday] can be read and made a Date, is
    answered with status 200, whatever the lookup gives, and the handler
    only adds to the log. *)
Theorem parsed_body_gives_200 (request : ResponseProviderRequest) (w : World)
    (jsonBody : JsonValue) (birthday : option JsonValue) (birthdate : Date) :
  json request = JsonResolved jsonBody ->
  get_property jsonBody "birthday" = Normal birthday ->
  Date_constructor engineDate birthday = Normal birthdate ->
  exists r w',
    responseProvider engineDate request w = (Resolved r, w') /\
    status r = 200 /\ now w' = now w /\ store w' = store w.
Proof.
  intros Body Birthday Converts.
  rewrite (responseProvider_parsed request w jsonBody birthday birthdate
             Body Birthday Converts).
  do 2 eexists. split; [ reflexivity | ].
  split; [ apply respond_status | apply lookup_minimalAge_world ].
Qed.

(** The promise of the handler is rejected for two kinds of body only, both
    at line 53: the body [null], and a body whose [birthday] is an object
    or an array that [new Date] cannot convert. Every other request is
    answered. *)
Theorem handler_rejects_exactly_when (request : ResponseProviderRequest)
    (w : World) :
  (exists e, fst (responseProvider engineDate request w) = Rejected e) <->
  (exists jsonBody,
     json request = JsonResolved jsonBody /\
     (jsonBody = JNull \/
      exists v,
        get_property jsonBody "birthday" = Normal (Some v) /\
        ToPrimitive_throws v = true)).
Proof.
  destruct (responseProvider_cases request w)
    as [(error & B & body & R) | [(B & R) | [(jsonBody & v & B & P & T & R)
       | (jsonBody & birthday & birthdate & B & P & C & R)]]];
    rewrite R; cbn [fst]; split.
  - intros [e E]. discriminate E.
  - intros (jsonBody & B' & _). congruence.
  - intros _. exists JNull. split; [ exact B | now left ].
  - intros _. now exists TypeError.
  - intros _. exists jsonBody. split; [ exact B | ]. right. now exists v.
  - intros _. now exists TypeError.
  - intros [e E]. discriminate E.
  - intros (jsonBody' & B' & [-> | (v & P' & T)]).
    + rewrite B in B'. injection B' as ->. discriminate P.
    + rewrite B in B'. injection B' as ->. rewrite P in P'. injection P' as ->.
      apply Date_constructor_normal in C as [_ C]. rewrite (C v eq_refl) in T.
      discriminate T.
Qed.

(** C6, amended: when [new Date] makes an invalid Date of the [birthday] of
    the body, the age is NaN, its comparison with any integer minimal age
    fails, and the answer carries no set-cookie header and the message
    "You are too young to drink!". *)
Theorem unparseable_birthday_is_denied (request : ResponseProviderRequest)
    (w : World) (jsonBody : JsonValue) (birthday : option JsonValue)
    (birthdate : Date) :
  json request = JsonResolved jsonBody ->
  get_property jsonBody "birthday" = Normal birthday ->
  Date_constructor engineDate birthday = Normal birthdate ->
  DateValue birthdate = NaN ->
  calculateAge (now w) birthdate = NaN /\
  (forall minimalAge : Z,
     number_ge (calculateAge (now w) birthdate) (Num minimalAge) = false) /\
  exists r,
    fst (responseProvider engineDate request w) = Resolved r /\
    status r = 200 /\
    header (headers r) "set-cookie" = None /\
    body r = JSON_stringify
               {| age := NaN; country := countryCode_of request;
                  message := "You are too young to drink!" |}.
Proof.
  intros Body Birthday Converts Invalid.
  assert (A : calculateAge (now w) birthdate = NaN)
    by (unfold calculateAge, getTime; now rewrite Invalid).
  split; [ exact A | ]. split; [ intro; now rewrite A | ].
  rewrite (responseProvider_parsed request w jsonBody birthday birthdate
             Body Birthday Converts).
  rewrite A. eexists. split; [ reflexivity | ].
  rewrite respond_too_young by reflexivity. repeat split.
Qed.

(** C9: two calls of the handler on the same request, at the same instant
    and with a store that answers the same reads alike, settle alike: the
    same rejection, or answers with the same status, headers and body,
    whatever was logged before. *)
Theorem same_input_same_response (request : ResponseProviderRequest)
    (w w' : World) :
  now w = now w' ->
  (forall ns g k i, store w ns g k i = store w' ns g k i) ->
  fst (responseProvider engineDate request w)
  = fst (responseProvider engineDate request w').
Proof.
  intros Instant Reads.
  destruct (json request) as [jsonBody | error] eqn:Body.
  - destruct (get_property jsonBody "birthday") as [birthday | e] eqn:Birthday.
    + destruct (Date_constructor engineDate birthday) as [birthdate | e]
        eqn:Converts.
      * rewrite !(responseProvider_parsed request _ jsonBody birthday birthdate
                    Body Birthday Converts).
        cbn [fst]. unfold effective_minimalAge.
        now rewrite Instant, (lookup_minimalAge_ext _ _ w w' Reads).
      * unfold responseProvider. now rewrite Body, Birthday, Converts.
    + unfold responseProvider. now rewrite Body, Birthday.
  - unfold responseProvider. now rewrite Body.
Qed.

(** C10: a country code that is present but empty is replaced by "NL", and
    the handler then does exactly what it does without a country code: for a
    body that is an object with an age, "NL" is the key of the lookup and
    the country of the answer. *)
Theorem empty_country_is_NL (body : JsonOutcome)
    (properties : list (string * JsonValue)) (w : World) :
  let empty (b : JsonOutcome) :=
    {| json := b; userLocation := {| EW.country := Some ""%string |} |} in
  let absent (b : JsonOutcome) :=
    {| json := b; userLocation := {| EW.country := None |} |} in
  countryCode_of (empty body) = "NL"%string /\
  responseProvider engineDate (empty body) w
  = responseProvider engineDate (absent body) w /\
  forall birthdate,
    Date_constructor engineDate (last_property properties "birthday" None)
    = Normal birthdate ->
    fst (responseProvider engineDate (empty (JsonResolved (JObject properties))) w)
    = Resolved
        (respond (calculateAge (now w) birthdate) (effective_minimalAge "NL" w)
           {| age := calculateAge (now w) birthdate; country := "NL";
              message := "You are too young to drink!" |}).
Proof.
  cbv zeta. split; [ reflexivity | ]. split; [ reflexivity | ].
  intros birthdate Converts.
  now rewrite (responseProvider_parsed _ w (JObject properties)
                 (last_property properties "birthday" None) birthdate).
Qed.

(** The decimal notation of an integer starts with a digit or a minus sign. *)
Lemma Number_toString_head (n : Z) :
  exists c rest, Number_toString n = String c rest /\ c <> "n"%char.
Proof.
  unfold Number_toString.
  destruct n as [ | p | p]; cbn [Z.to_int NilZero.string_of_int].
  - do 2 eexists. split; [ reflexivity | discriminate ].
  - destruct (Pos.to_uint p); cbn; do 2 eexists; (split; [ reflexivity | discriminate ]).
  - do 2 eexists. split; [ reflexivity | discriminate ].
Qed.

(** C8, amended: whenever the handler answers a parsed body, the body of the
    answer is the serialization of an object with exactly the properties
    age, country and message, in this order: country is the country code of
    the lookup, message is one of the two texts, and age is the age of the
    birthday of the request, in decimal notation when it is an integer and
    [null] when it is NaN. *)
Theorem response_body_shape (request : ResponseProviderRequest) (w w' : World)
    (r : HttpResponse) :
  responseProvider engineDate request w = (Resolved r, w') ->
  status r = 200 ->
  exists jsonBody birthday birthdate message,
    json request = JsonResolved jsonBody /\
    get_property jsonBody "birthday" = Normal birthday /\
    Date_constructor engineDate birthday = Normal birthdate /\
    (message = "Welcome, have a drink."%string \/
     message = "You are too young to drink!"%string) /\
    body r =
      ("{" ++ QuoteJSONString "age" ++ ":"
         ++ match calculateAge (now w) birthdate with
            | NaN => "null"
            | Num n => Number_toString n
            end
         ++ "," ++ QuoteJSONString "country" ++ ":"
         ++ QuoteJSONString (countryCode_of request)
         ++ "," ++ QuoteJSONString "message" ++ ":"
         ++ QuoteJSONString message ++ "}")%string.
Proof.
  intros Run Ok.
  destruct (responseProvider_cases request w)
    as [(error & B & body & R) | [(B & R) | [(jsonBody & v & B & P & T & R)
       | (jsonBody & birthday & birthdate & B & P & C & R)]]];
    rewrite R in Run; try discriminate Run; injection Run as <- <-.
  - discriminate Ok.
  - exists jsonBody, birthday, birthdate.
    destruct (number_ge (calculateAge (now w) birthdate)
                (Num (effective_minimalAge (countryCode_of request) w))) eqn:Cmp.
    + rewrite respond_old_enough by exact Cmp.
      exists "Welcome, have a drink."%string.
      repeat (split; [ assumption || reflexivity || (now left) | ]). reflexivity.
    + rewrite respond_too_young by exact Cmp.
      exists "You are too young to drink!"%string.
      repeat (split; [ assumption || reflexivity || (now right) | ]). reflexivity.
Qed.

End HandlerProperties.

(** ** The age calculator *)

Lemma calculateAge_value (now b : Z) :
  calculateAge now (mkDate (Num b))
  = if Z.abs (now - b) <=? maxTime then Num (YearFromTime (now - b) - 1970)
    else NaN.
Proof.
  unfold calculateAge, getTime, getUTCFullYear, Date_of_number.
  cbn [DateValue number_sub TimeClip].
  destruct (Z.leb_spec (Z.abs (now - b)) maxTime) as [In | Out].
  - destruct (Z.ltb_spec maxTime (Z.abs (now - b))); [ lia | reflexivity ].
  - destruct (Z.ltb_spec maxTime (Z.abs (now - b))); [ reflexivity | lia ].
Qed.

(** C5, amended: the age is fixed by the current instant and the time value
    of the birthdate alone. It is NaN when the birthdate is not a date or
    lies more than 8.64e15 ms from the current instant; otherwise it is an
    integer, and this integer is not negative exactly when the birthdate is
    not later than the current instant. *)
Theorem age_is_integer_or_NaN (now : Z) (birthdate : Date) :
  match DateValue birthdate with
  | NaN => calculateAge now birthdate = NaN
  | Num b =>
      if Z.abs (now - b) <=? maxTime then
        exists n : Z, calculateAge now birthdate = Num n /\ (0 <= n <-> b <= now)
      else calculateAge now birthdate = NaN
  end.
Proof.
  destruct birthdate as [[ | b]]; cbn [DateValue]; [ reflexivity | ].
  rewrite calculateAge_value.
  destruct (Z.abs (now - b) <=? maxTime); [ | reflexivity ].
  exists (YearFromTime (now - b) - 1970). split; [ reflexivity | ].
  pose proof (YearFromTime_sign (now - b)). lia.
Qed.

(** C7, amended: for a birthdate that is a date and at most 8.64e15 ms away
    from the current instant, the age is the one the specification
    describes: the UTC year of the calendar date that lies the elapsed
    milliseconds after the start of 1970, minus 1970. Further away, the
    elapsed time is no date and the age is NaN. *)
Theorem calculateAge_meets_spec (now b : Z) :
  calculateAge now (mkDate (Num b))
  = if Z.abs (now - b) <=? maxTime then Num (Spec.calculateAge now b) else NaN.
Proof.
  rewrite calculateAge_value. unfold Spec.calculateAge, Spec.epochYear.
  now rewrite utc_year_YearFromTime.
Qed.

(** ** The statements at concrete requests *)

Lemma slowStore_fails (key : string) :
  lookup_fails Sample.slowStore key EdgeKV.TimedOut.
Proof. apply timeout_after_all_retries; reflexivity. Qed.

(** Born on 2000-01-01, asking from the US in June 2024, where the store
    says 21. *)
Lemma marker_iff_old_enough_witness :
  exists r,
    fst (responseProvider Sample.strictEngine
           (Sample.born "2000-01-01" (Some "US"%string))
           (Sample.world (Sample.answering (Sample.integer 21))))
    = Resolved r /\
    status r = 200 /\
    header (headers r) "set-cookie" = Some (Single "old_enough=yes") /\
    body r = JSON_stringify
               {| age := Num 24; country := "US";
                  message := "Welcome, have a drink." |}.
Proof.
  exact (marker_iff_old_enough Sample.strictEngine
           (Sample.born "2000-01-01" (Some "US"%string))
           (Sample.world (Sample.answering (Sample.integer 21)))
           _ _ _ eq_refl eq_refl eq_refl).
Defined.

(** Born on 2000-01-01, asking from the US while the store does not answer
    in time: compared with 18, as in a world whose store says 18. *)
Lemma failed_lookup_means_18_witness :
  effective_minimalAge "US" (Sample.world Sample.slowStore) = 18 /\
  fst (responseProvider Sample.strictEngine
         (Sample.born "2000-01-01" (Some "US"%string))
         (Sample.world Sample.slowStore))
  = fst (responseProvider Sample.strictEngine
           (Sample.born "2000-01-01" (Some "US"%string))
           (Sample.world (Sample.answering (Sample.integer 18)))) /\
  fst (responseProvider Sample.strictEngine
         (Sample.born "2000-01-01" (Some "US"%string))
         (Sample.world Sample.slowStore))
  = Resolved
      (respond (Num 24) 18
         {| age := Num 24; country := "US";
            message := "You are too young to drink!" |}).
Proof.
  pose proof (failed_lookup_means_18 Sample.strictEngine
                (Sample.born "2000-01-01" (Some "US"%string))
                (Sample.world Sample.slowStore)
                EdgeKV.TimedOut (slowStore_fails "US")) as (E & Same & Answer).
  split; [ exact E | ]. split.
  - exact (Same (Sample.world (Sample.answering (Sample.integer 18)))
             eq_refl eq_refl).
  - exact (Answer _ _ _ eq_refl eq_refl eq_refl).
Defined.

(** Born on 2010-01-01, asking while the store does not answer in time. *)
Lemma parsed_body_gives_200_witness :
  exists r w',
    responseProvider Sample.strictEngine (Sample.born "2010-01-01" None)
      (Sample.world Sample.slowStore) = (Resolved r, w') /\
    status r = 200 /\
    now w' = now (Sample.world Sample.slowStore) /\
    store w' = store (Sample.world Sample.slowStore).
Proof.
  exact (parsed_body_gives_200 Sample.strictEngine
           (Sample.born "2010-01-01" None) (Sample.world Sample.slowStore)
           _ _ _ eq_refl eq_refl eq_refl).
Defined.

(** A birthday that is no date, asking without a country. *)
Lemma unparseable_birthday_is_denied_witness :
  calculateAge Sample.mid2024
    (new_Date Sample.strictEngine (Some (JString "yesterday"))) = NaN /\
  (forall minimalAge : Z,
     number_ge
       (calculateAge Sample.mid2024
          (new_Date Sample.strictEngine (Some (JString "yesterday"))))
       (Num minimalAge) = false) /\
  exists r,
    fst (responseProvider Sample.strictEngine (Sample.born "yesterday" None)
           (Sample.world (Sample.answering (Sample.integer 18))))
    = Resolved r /\
    status r = 200 /\
    header (headers r) "set-cookie" = None /\
    body r = JSON_stringify
               {| age := NaN; country := "NL";
                  message := "You are too young to drink!" |}.
Proof.
  exact (unparseable_birthday_is_denied Sample.strictEngine
           (Sample.born "yesterday" None)
           (Sample.world (Sample.answering (Sample.integer 18)))
           _ _ _ eq_refl eq_refl eq_refl eq_refl).
Defined.

(** C6, as stated, fails for a birthday that is no date and yet a time
    value: the birthday null is read as the start of 1970, and in June 2024
    the request passes a minimal age of 21 with the age 54. *)
Lemma null_birthday_passes_counterexample :
  let request := Sample.withBody (JObject [("birthday"%string, JNull)]) in
  let w := Sample.world (Sample.answering (Sample.integer 21)) in
  calculateAge (now w) (new_Date Sample.strictEngine (Some JNull)) = Num 54 /\
  exists r,
    fst (responseProvider Sample.strictEngine request w) = Resolved r /\
    header (headers r) "set-cookie" = Some (Single "old_enough=yes") /\
    body r = JSON_stringify
               {| age := Num 54; country := "US";
                  message := "Welcome, have a drink." |}.
Proof.
  cbv zeta. split; [ vm_compute; reflexivity | ].
  eexists. split; [ vm_compute; reflexivity | ]. split; reflexivity.
Qed.

(** A body without a birthday: the age is serialized as null. *)
Lemma response_body_shape_witness :
  let request := Sample.withBody (JObject []) in
  let w := Sample.world Sample.emptyStore in
  let out := responseProvider Sample.strictEngine request w in
  exists jsonBody birthday birthdate message,
    json request = JsonResolved jsonBody /\
    get_property jsonBody "birthday" = Normal birthday /\
    Date_constructor Sample.strictEngine birthday = Normal birthdate /\
    (message = "Welcome, have a drink."%string \/
     message = "You are too young to drink!"%string) /\
    body (Sample2.answer out) =
      ("{" ++ QuoteJSONString "age" ++ ":"
         ++ match calculateAge (now w) birthdate with
            | NaN => "null"
            | Num n => Number_toString n
            end
         ++ "," ++ QuoteJSONString "country" ++ ":"
         ++ QuoteJSONString (countryCode_of request)
         ++ "," ++ QuoteJSONString "message" ++ ":"
         ++ QuoteJSONString message ++ "}")%string.
Proof.
  cbv zeta.
  apply (response_body_shape Sample.strictEngine
           (Sample.withBody (JObject []))
           (Sample.world Sample.emptyStore)
           (snd (responseProvider Sample.strictEngine
                   (Sample.withBody (JObject []))
                   (Sample.world Sample.emptyStore)))).
  - reflexivity.
  - reflexivity.
Defined.

(** The second of two calls in a row, made in the world the first one left. *)
Lemma same_input_same_response_witness :
  let request := Sample.born "2000-01-01" (Some "US"%string) in
  let w := Sample.world (Sample.answering (Sample.integer 21)) in
  fst (responseProvider Sample.strictEngine request w)
  = fst (responseProvider Sample.strictEngine request
           (snd (responseProvider Sample.strictEngine request w))).
Proof.
  exact (same_input_same_response Sample.strictEngine
           (Sample.born "2000-01-01" (Some "US"%string))
           (Sample.world (Sample.answering (Sample.integer 21)))
           (snd (responseProvider Sample.strictEngine
                   (Sample.born "2000-01-01" (Some "US"%string))
                   (Sample.world (Sample.answering (Sample.integer 21)))))
           eq_refl (fun _ _ _ _ => eq_refl)).
Defined.

(** C5, as stated, fails for a birthday after the current instant: born on
    2030-01-01 and asked in June 2024, the age is -6. *)
Lemma negative_age_counterexample :
  calculateAge Sample.mid2024
    (new_Date Sample.strictEngine (Some (JString "2030-01-01"))) = Num (-6) /\
  ~ (exists n : Z,
       0 <= n /\
       calculateAge Sample.mid2024
         (new_Date Sample.strictEngine (Some (JString "2030-01-01"))) = Num n).
Proof.
  assert (E : calculateAge Sample.mid2024
                (new_Date Sample.strictEngine (Some (JString "2030-01-01")))
              = Num (-6)) by (vm_compute; reflexivity).
  split; [ exact E | ].
  intros (n & Nonneg & A). rewrite E in A. injection A as <-. lia.
Qed.

(** C7, as stated, fails at the far end of the time values: the earliest
    date a Date holds is a birthdate, yet in June 2024 the elapsed time is
    beyond the range of Date, and the age is NaN, not the year count of the
    calendar. *)
Lemma out_of_range_counterexample :
  DateValue
    (new_Date Sample.strictEngine
       (Some (Sample.integer (-8640000000000000)))) = Num (-8640000000000000) /\
  calculateAge Sample.mid2024
    (new_Date Sample.strictEngine (Some (Sample.integer (-8640000000000000))))
  = NaN /\
  Spec.calculateAge Sample.mid2024 (-8640000000000000) = 273845.
Proof. vm_compute. repeat split. Qed.

(** C8, as stated, fails for a body without a birthday: the age of the
    answer is null, the serialization of no integer. *)
Lemma null_age_counterexample :
  ~ (exists r n c m,
       fst (responseProvider Sample.strictEngine (Sample.withBody (JObject []))
              (Sample.world Sample.emptyStore))
       = Resolved r /\
       body r = JSON_stringify {| age := Num n; country := c; message := m |}).
Proof.
  intros (r & n & c & m & R & B).
  vm_compute in R. injection R as <-.
  unfold JSON_stringify in B. cbn [age body stringify_number] in B.
  destruct (Number_toString_head n) as (ch & rest & E & Head).
  rewrite E in B. cbn in B. injection B as B _. now apply Head.
Qed.

(** * Further properties of the age calculator *)

Lemma YearFromTime_ge (y t : Z) : y <= YearFromTime t <-> TimeFromYear y <= t.
Proof.
  pose proof (YearFromTime_largest t) as [Lo Max]. split; intro H.
  - pose proof (DayFromYear_le y (YearFromTime t) H).
    unfold TimeFromYear, msPerDay in *. lia.
  - now apply Max.
Qed.

Lemma YearFromTime_mono (t t' : Z) : t <= t' -> YearFromTime t <= YearFromTime t'.
Proof.
  intro H. apply YearFromTime_ge.
  pose proof (YearFromTime_largest t) as [Lo _]. lia.
Qed.

Lemma calculateAge_in_range (now b : Z) :
  Z.abs (now - b) <= maxTime ->
  calculateAge now (mkDate (Num b)) = Num (YearFromTime (now - b) - 1970).
Proof.
  intro In. rewrite calculateAge_value.
  destruct (Z.leb_spec (Z.abs (now - b)) maxTime); [ reflexivity | lia ].
Qed.

(** The comparison of the handler, in elapsed time: an age reaches the
    minimal age [m] exactly when the time from the birthdate to the current
    instant reaches the start of the year [1970 + m], counted from the start
    of 1970; for 18 that is 6574 days, whatever the leap years between the
    two dates. *)
Theorem comparison_is_a_threshold_on_elapsed_time (now b m : Z) :
  Z.abs (now - b) <= maxTime ->
  number_ge (calculateAge now (mkDate (Num b))) (Num m) = true
  <-> msPerDay * DayFromYear (1970 + m) <= now - b.
Proof.
  intro In. rewrite calculateAge_in_range by exact In. cbn [number_ge].
  rewrite Z.leb_le. fold (TimeFromYear (1970 + m)).
  rewrite <- YearFromTime_ge. lia.
Qed.

(** More elapsed time never gives a smaller age: a later instant or an
    earlier birthdate keeps or raises it. *)
Theorem age_grows_with_elapsed_time (now now' b b' : Z) :
  Z.abs (now - b) <= maxTime ->
  Z.abs (now' - b') <= maxTime ->
  now - b <= now' - b' ->
  exists n n',
    calculateAge now (mkDate (Num b)) = Num n /\
    calculateAge now' (mkDate (Num b')) = Num n' /\
    n <= n'.
Proof.
  intros In In' Le. rewrite !calculateAge_in_range by assumption.
  do 2 eexists. split; [ reflexivity | ]. split; [ reflexivity | ].
  pose proof (YearFromTime_mono _ _ Le). lia.
Qed.

(** An age [n] that is not negative stands for at least [365 n] whole days
    and at most [365 n + n / 4 + 365]: a year of age is 365 days, with one
    day more for at most every fourth year. *)
Theorem age_in_days (now b : Z) :
  b <= now -> now - b <= maxTime ->
  exists n,
    calculateAge now (mkDate (Num b)) = Num n /\
    0 <= n /\
    365 * n <= (now - b) / msPerDay <= 365 * n + n / 4 + 365.
Proof.
  intros Past In. rewrite calculateAge_in_range by lia.
  eexists. split; [ reflexivity | ].
  pose proof (YearFromTime_sign (now - b)) as Sign.
  pose proof (YearFromTime_day (now - b)) as Days.
  unfold Day in Days.
  assert (Y : 1970 <= YearFromTime (now - b)) by (apply Sign; lia).
  split; [ lia | ].
  revert Days Y. generalize (YearFromTime (now - b)) as y.
  generalize ((now - b) / msPerDay) as d. intros d y Days Y.
  unfold DayFromYear in Days. euclid.
Qed.

Lemma comparison_is_a_threshold_on_elapsed_time_witness :
  number_ge (calculateAge Sample.mid2024 (mkDate (Num 946684800000))) (Num 21) = true
  <-> msPerDay * DayFromYear (1970 + 21) <= Sample.mid2024 - 946684800000.
Proof.
  apply (comparison_is_a_threshold_on_elapsed_time Sample.mid2024 946684800000 21).
  vm_compute. discriminate.
Defined.

Lemma age_grows_with_elapsed_time_witness :
  exists n n',
    calculateAge Sample.mid2024 (mkDate (Num 946684800000)) = Num n /\
    calculateAge (Sample.mid2024 + msPerDay) (mkDate (Num 0)) = Num n' /\
    n <= n'.
Proof.
  apply (age_grows_with_elapsed_time Sample.mid2024 (Sample.mid2024 + msPerDay)
           946684800000 0);
    vm_compute; discriminate.
Defined.

Lemma age_in_days_witness :
  exists n,
    calculateAge Sample.mid2024 (mkDate (Num 946684800000)) = Num n /\
    0 <= n /\
    365 * n <= (Sample.mid2024 - 946684800000) / msPerDay <= 365 * n + n / 4 + 365.
Proof.
  apply (age_in_days Sample.mid2024 946684800000); vm_compute; discriminate.
Defined.

(** * Further properties of the handler *)

Section HandlerAnswers.

Variable engineDate : JsonValue -> number.

Lemma respond_headers (a : number) (m : Z) (r : Response) :
  headers (respond a m r)
  = if number_ge a (Num m)
    then (responseHeader ++ [("set-cookie"%string, Single "old_enough=yes")])%list
    else responseHeader.
Proof. unfold respond. destruct (number_ge a (Num m)); reflexivity. Qed.

(** Every answer of the handler, be it 200 or 503, carries the two default
    headers unchanged; the only other header it can carry is set-cookie, and
    a 503 never carries it. *)
Theorem answers_keep_the_default_headers (request : ResponseProviderRequest)
    (w w' : World) (r : HttpResponse) :
  responseProvider engineDate request w = (Resolved r, w') ->
  (status r = 200 \/ status r = 503) /\
  header (headers r) "Powered-By" = Some (Multi ["Akamai EdgeWorkers: 0.0.16"%string]) /\
  header (headers r) "content-type" = Some (Multi ["application/json"%string]) /\
  (status r = 503 -> header (headers r) "set-cookie" = None) /\
  (forall name,
     header (headers r) name <> None ->
     name = "Powered-By"%string \/ name = "content-type"%string \/
     name = "set-cookie"%string).
Proof.
  intro Run.
  assert (Names : forall h name,
            (h = responseHeader \/
             h = (responseHeader ++ [("set-cookie"%string, Single "old_enough=yes")])%list) ->
            header h name <> None ->
            name = "Powered-By"%string \/ name = "content-type"%string \/
            name = "set-cookie"%string).
  { intros h name Which. unfold responseHeader in Which.
    destruct Which as [-> | ->]; cbn [header app];
      destruct (String.eqb_spec "Powered-By" name); auto;
      destruct (String.eqb_spec "content-type" name); auto;
      destruct (String.eqb_spec "set-cookie" name); auto;
      intro Absurd; now destruct Absurd. }
  destruct (responseProvider_cases engineDate request w)
    as [(error & _ & body & E) | [(_ & E) | [(jsonBody & v & _ & _ & _ & E)
       | (jsonBody & birthday & birthdate & B & P & C & E)]]];
    rewrite E in Run; [ | discriminate | discriminate | ]; injection Run as <- <-.
  - split; [ now right | ]. repeat split; try reflexivity.
    + intros name. apply Names. now left.
  - split; [ left; apply respond_status | ].
    rewrite respond_headers, respond_status.
    destruct (number_ge _ _); repeat split; try reflexivity; try discriminate;
      intros name; apply Names; auto.
Qed.

(** The handler never touches the instant or the store and never drops a
    line of the log: an answer with status 200 adds exactly one line, which
    tells the value found or the failure; a 503 and a rejection add none. *)
Theorem handler_logs_one_line_per_lookup (request : ResponseProviderRequest)
    (w w' : World) (p : Promise HttpResponse) :
  responseProvider engineDate request w = (p, w') ->
  now w' = now w /\ store w' = store w /\
  match p with
  | Resolved r =>
      if status r =? 200 then
        exists line,
          log w' = (log w ++ [line])%list /\
          match EdgeKV.getJson (store w) edgeKv2fa (countryCode_of request)
                  edgeKvTimeout with
          | EdgeKV.Ok found => line = EdgekvValue found
          | EdgeKV.Failed _ => line = SomethingWentWrong ErrorToStringMethod
          end
      else log w' = log w
  | Rejected _ => log w' = log w
  end.
Proof.
  intro Run.
  destruct (responseProvider_cases engineDate request w)
    as [(error & _ & body & E) | [(_ & E) | [(jsonBody & v & _ & _ & _ & E)
       | (jsonBody & birthday & birthdate & B & P & C & E)]]];
    rewrite E in Run; injection Run as <- <-.
  - repeat split.
  - repeat split.
  - repeat split.
  - split; [ apply lookup_minimalAge_world | ].
    split; [ apply lookup_minimalAge_world | ].
    rewrite respond_status. cbn [Z.eqb Pos.eqb].
    unfold lookup_minimalAge.
    destruct (EdgeKV.getJson (store w) edgeKv2fa (countryCode_of request) edgeKvTimeout);
      cbn [fst snd logged log]; eexists; split; reflexivity.
Qed.

(** Of the whole store, the handler depends on three reads at most: those
    of its namespace and group under the country code of the request. *)
Theorem only_three_reads_matter (request : ResponseProviderRequest)
    (w w' : World) :
  now w = now w' ->
  (forall i, (i <= 2)%nat ->
     reading (store w) (countryCode_of request) i
     = reading (store w') (countryCode_of request) i) ->
  fst (responseProvider engineDate request w)
  = fst (responseProvider engineDate request w').
Proof.
  intros Instant Reads.
  assert (M : effective_minimalAge (countryCode_of request) w
              = effective_minimalAge (countryCode_of request) w').
  { unfold effective_minimalAge, lookup_minimalAge.
    rewrite !getJson_three_reads, !Reads by lia.
    destruct (edgeKvTimeout <? _); [ | now destruct (EdgeKV.interpret _) ].
    destruct (edgeKvTimeout <? _); [ | now destruct (EdgeKV.interpret _) ].
    destruct (edgeKvTimeout <? _); [ reflexivity | now destruct (EdgeKV.interpret _) ]. }
  destruct (responseProvider_cases engineDate request w)
    as [(error & B & body & E) | [(B & E) | [(jsonBody & v & B & P & T & E)
       | (jsonBody & birthday & birthdate & B & P & C & E)]]].
  - unfold responseProvider. now rewrite B.
  - unfold responseProvider. now rewrite B.
  - unfold responseProvider, Date_constructor. now rewrite B, P, T.
  - rewrite !(responseProvider_parsed engineDate request _ jsonBody birthday
                birthdate B P C).
    cbn [fst]. now rewrite Instant, M.
Qed.

End HandlerAnswers.

(** * The body of an answer, read back *)

Lemma expect_append (p s : string) : Decode.expect p (p ++ s) = Some s.
Proof.
  induction p as [ | a p IH]; cbn [Decode.expect append]; [ now destruct s | ].
  now rewrite Ascii.eqb_refl.
Qed.

Lemma append_assoc (a b c : string) : ((a ++ b) ++ c = a ++ (b ++ c))%string.
Proof. induction a as [ | x a IH]; cbn [append]; [ reflexivity | now rewrite IH ]. Qed.

(** One escaped character is read back as the character. *)
Lemma string_literal_escape_char (c : ascii) (rest : string) :
  Decode.string_literal (escape_char c ++ rest)
  = Decode.push c (Decode.string_literal rest).
Proof.
  destruct c as [[] [] [] [] [] [] [] []]; reflexivity.
Qed.

Lemma string_literal_escape (s rest : string) :
  Decode.string_literal (escape s ++ dquote ++ rest) = Some (s, rest).
Proof.
  induction s as [ | c s IH]; cbn [escape].
  - reflexivity.
  - rewrite append_assoc, string_literal_escape_char, IH. reflexivity.
Qed.

Lemma until_comma_digits (d : Decimal.uint) (rest : string) :
  Decode.until_comma (NilEmpty.string_of_uint d ++ String "," rest)
  = Some (NilEmpty.string_of_uint d, rest).
Proof.
  induction d; cbn [NilEmpty.string_of_uint append Decode.until_comma];
    try reflexivity;
    cbn [Ascii.eqb Bool.eqb]; rewrite IHd; reflexivity.
Qed.

Lemma until_comma_number (n : number) (rest : string) :
  Decode.until_comma (stringify_number n ++ "," ++ rest)
  = Some (stringify_number n, rest).
Proof.
  change ("," ++ rest)%string with (String "," rest).
  destruct n as [ | z]; [ reflexivity | ].
  unfold stringify_number, Number_toString.
  destruct z as [ | p | p]; cbn [Z.to_int NilZero.string_of_int].
  - reflexivity.
  - unfold NilZero.string_of_uint.
    destruct (Pos.to_uint p) eqn:E; try (rewrite <- E; apply until_comma_digits);
      try apply until_comma_digits.
    reflexivity.
  - unfold NilZero.string_of_uint.
    destruct (Pos.to_uint p) eqn:E;
      cbn [append Decode.until_comma Ascii.eqb Bool.eqb];
      [ reflexivity | .. ];
      rewrite until_comma_digits; reflexivity.
Qed.

Lemma number_literal_stringify (n : number) :
  Decode.number_literal (stringify_number n) = Some n.
Proof.
  destruct n as [ | z]; [ reflexivity | ].
  unfold Decode.number_literal, stringify_number.
  destruct (Number_toString_head z) as (c & rest & E & Head).
  assert (NotNull : String.eqb (Number_toString z) "null" = false).
  { rewrite E. apply String.eqb_neq. intros [= -> _]. now apply Head. }
  rewrite NotNull. unfold Number_toString.
  rewrite NilZero.isi.
  - cbn [Decode.bind]. now rewrite DecimalZ.of_to.
  - destruct z; cbn [Z.to_int]; try discriminate.
    intros [= E']. now apply (DecimalPos.Unsigned.to_uint_nonnil p).
  - destruct z; cbn [Z.to_int]; try discriminate.
    intros [= E']. now apply (DecimalPos.Unsigned.to_uint_nonnil p).
Qed.

Lemma JSON_stringify_layout (r : Response) :
  JSON_stringify r
  = (append "{" (append (QuoteJSONString "age") ":")
     ++ stringify_number (age r) ++ ","
     ++ append (QuoteJSONString "country") (append ":" dquote)
     ++ escape (country r) ++ dquote
     ++ append "," (append (QuoteJSONString "message") (append ":" dquote))
     ++ escape (message r) ++ dquote ++ "}")%string.
Proof.
  unfold JSON_stringify, QuoteJSONString.
  rewrite !append_assoc. reflexivity.
Qed.

Lemma payload_of_stringify (r : Response) :
  Decode.payload (JSON_stringify r) = Some r.
Proof.
  rewrite JSON_stringify_layout. unfold Decode.payload.
  rewrite expect_append. cbn [Decode.bind].
  rewrite until_comma_number. cbn [Decode.bind].
  rewrite number_literal_stringify. cbn [Decode.bind].
  rewrite expect_append. cbn [Decode.bind].
  rewrite string_literal_escape. cbn [Decode.bind].
  rewrite expect_append. cbn [Decode.bind].
  rewrite string_literal_escape. cbn [Decode.bind].
  now destruct r.
Qed.

(** What the handler serializes is read back as it was, whatever characters
    the country code holds (quotes, backslashes, control characters): the
    body keeps the three properties apart, and two payloads with the same
    body are the same payload. *)
Theorem payload_round_trip (r r' : Response) :
  Decode.payload (JSON_stringify r) = Some r /\
  (JSON_stringify r = JSON_stringify r' -> r = r').
Proof.
  split; [ apply payload_of_stringify | ].
  intro Same.
  pose proof (payload_of_stringify r) as P.
  rewrite Same, payload_of_stringify in P. now injection P.
Qed.

Lemma respond_body (a : number) (m : Z) (r : Response) :
  body (respond a m r)
  = JSON_stringify
      (if number_ge a (Num m) then set_message r "Welcome, have a drink." else r).
Proof. unfold respond. destruct (number_ge a (Num m)); reflexivity. Qed.

Lemma header_after_default (v : HeaderValue) :
  header (responseHeader ++ [("set-cookie"%string, v)]) "set-cookie" = Some v.
Proof. reflexivity. Qed.

(** A key that an object does not hold is not found. *)
Lemma last_property_absent (properties : list (string * JsonValue))
    (key : string) :
  ~ In key (map fst properties) ->
  forall found, last_property properties key found = found.
Proof.
  induction properties as [ | [k x] rest IH]; intros NoKey found;
    cbn [last_property]; [ reflexivity | ].
  cbn [map fst In] in NoKey.
  destruct (String.eqb_spec k key) as [-> | _];
    [ exfalso; apply NoKey; now left | ].
  apply IH. intro H. apply NoKey. now right.
Qed.

Lemma escape_char_plain (c : ascii) :
  Decode.plain c = true -> escape_char c = String c EmptyString.
Proof.
  destruct c as [[] [] [] [] [] [] [] []]; intro P;
    try discriminate P; reflexivity.
Qed.

Lemma escape_plain (s : string) : Decode.all_plain s = true -> escape s = s.
Proof.
  induction s as [ | c s IH]; cbn [Decode.all_plain escape]; [ reflexivity | ].
  intro P. apply andb_prop in P as [Pc Ps].
  now rewrite escape_char_plain, IH.
Qed.

(** The reader on the template of the handler, up to the text of the
    failure. *)
Lemma error_message_template (rest : string) :
  Decode.error_message
    (append "{" (append dquote (append "error" (append dquote (append ": "
       (append dquote rest))))))
  = Decode.bind (Decode.string_literal rest)
      (fun '(m, s) =>
         Decode.bind (Decode.expect "}" (Decode.skip_space s))
           (fun s => if String.eqb (Decode.skip_space s) EmptyString
                     then Some m else None)).
Proof. reflexivity. Qed.

(** The answer to a body that is not JSON reads as the JSON document
    [{"error": "<message>"}] whenever the text of the failure holds no double
    quote, no backslash and no control character: status 503, the default
    headers, and the message read back is the text; the store is not read
    and nothing is logged. *)
Theorem plain_error_text_reads_back (engineDate : JsonValue -> number)
    (error : string) (location : UserLocation) (w : World) :
  Decode.all_plain error = true ->
  exists r,
    responseProvider engineDate
      {| json := JsonRejected error; userLocation := location |} w
    = (Resolved r, w) /\
    status r = 503 /\
    headers r = responseHeader /\
    Decode.error_message (body r) = Some error.
Proof.
  intro Plain. eexists. split; [ reflexivity | ].
  split; [ reflexivity | ]. split; [ reflexivity | ].
  cbn [body createResponse]. rewrite error_message_template.
  replace (error ++ dquote ++ "}")%string
    with (escape error ++ dquote ++ "}")%string
    by now rewrite escape_plain.
  rewrite string_literal_escape. reflexivity.
Qed.

Section AnswersReadBack.

Variable engineDate : JsonValue -> number.

(** In every answer with status 200 the cookie, the message and the age
    agree: the body reads back as a payload, the cookie comes with the
    welcome and its absence with the refusal, and the cookie is there
    exactly when the age of the body reaches the minimal age of the country
    of the body. *)
Theorem cookie_message_and_age_agree (request : ResponseProviderRequest)
    (w w' : World) (r : HttpResponse) :
  responseProvider engineDate request w = (Resolved r, w') ->
  status r = 200 ->
  exists p,
    Decode.payload (body r) = Some p /\
    (header (headers r) "set-cookie" = Some (Single "old_enough=yes") /\
     message p = "Welcome, have a drink."%string /\
     number_ge (age p) (Num (effective_minimalAge (country p) w)) = true
     \/
     header (headers r) "set-cookie" = None /\
     message p = "You are too young to drink!"%string /\
     number_ge (age p) (Num (effective_minimalAge (country p) w)) = false).
Proof.
  intros Run Ok.
  destruct (responseProvider_cases engineDate request w)
    as [(error & _ & body & E) | [(_ & E) | [(jsonBody & v & _ & _ & _ & E)
       | (jsonBody & birthday & birthdate & B & P & C & E)]]];
    rewrite E in Run; [ | discriminate | discriminate | ]; injection Run as <- <-.
  - discriminate Ok.
  - rewrite respond_body, respond_headers.
    destruct (number_ge _ _) eqn:Cmp; eexists;
      (split; [ apply payload_of_stringify | ]).
    + left. cbn [set_message message age country].
      split; [ apply header_after_default | ]. split; [ reflexivity | exact Cmp ].
    + right. cbn [message age country].
      split; [ reflexivity | ]. split; [ reflexivity | exact Cmp ].
Qed.

(** A country code that is not empty comes back in the body unchanged,
    whatever characters it holds, next to the age of the birthday of the
    request. *)
Theorem country_code_comes_back (request : ResponseProviderRequest)
    (w w' : World) (r : HttpResponse) (c : string) :
  EW.country (userLocation request) = Some c ->
  c <> ""%string ->
  responseProvider engineDate request w = (Resolved r, w') ->
  status r = 200 ->
  exists jsonBody birthday birthdate p,
    json request = JsonResolved jsonBody /\
    get_property jsonBody "birthday" = Normal birthday /\
    Date_constructor engineDate birthday = Normal birthdate /\
    Decode.payload (body r) = Some p /\
    country p = c /\
    age p = calculateAge (now w) birthdate.
Proof.
  intros Country NotEmpty Run Ok.
  assert (Code : countryCode_of request = c).
  { unfold countryCode_of. rewrite Country.
    destruct (String.eqb_spec c ""); [ contradiction | reflexivity ]. }
  destruct (responseProvider_cases engineDate request w)
    as [(error & _ & body & E) | [(_ & E) | [(jsonBody & v & _ & _ & _ & E)
       | (jsonBody & birthday & birthdate & B & P & C & E)]]];
    rewrite E in Run; [ | discriminate | discriminate | ]; injection Run as <- <-.
  - discriminate Ok.
  - rewrite respond_body. exists jsonBody, birthday, birthdate. eexists.
    split; [ exact B | ]. split; [ exact P | ]. split; [ exact C | ].
    split; [ apply payload_of_stringify | ].
    destruct (number_ge _ _); cbn [set_message country age]; auto.
Qed.

(** A birthday that is null or false is read as the start of 1970: the age
    is the number of years since then, and the request passes as soon as
    this number reaches the minimal age. *)
Theorem null_birthday_counts_from_1970 (request : ResponseProviderRequest)
    (w : World) (jsonBody v : JsonValue) :
  json request = JsonResolved jsonBody ->
  get_property jsonBody "birthday" = Normal (Some v) ->
  v = JNull \/ v = JBool false ->
  0 <= now w <= maxTime ->
  let years := YearFromTime (now w) - 1970 in
  let passes := effective_minimalAge (countryCode_of request) w <=? years in
  exists r,
    fst (responseProvider engineDate request w) = Resolved r /\
    0 <= years /\
    header (headers r) "set-cookie"
    = (if passes then Some (Single "old_enough=yes") else None) /\
    body r = JSON_stringify
               {| age := Num years; country := countryCode_of request;
                  message := if passes then "Welcome, have a drink."
                             else "You are too young to drink!" |}.
Proof.
  intros Body Birthday Which Now years passes.
  assert (Converts : Date_constructor engineDate (Some v) = Normal (mkDate (Num 0)))
    by (destruct Which as [-> | ->]; reflexivity).
  rewrite (responseProvider_parsed engineDate request w jsonBody (Some v)
             (mkDate (Num 0)) Body Birthday Converts).
  assert (A : calculateAge (now w) (mkDate (Num 0)) = Num years).
  { rewrite calculateAge_in_range by lia.
    now replace (now w - 0) with (now w) by lia. }
  rewrite A. eexists. split; [ reflexivity | ].
  split; [ pose proof (YearFromTime_sign (now w)); lia | ].
  rewrite respond_body, respond_headers. cbn [number_ge]. fold passes.
  destruct passes; split; reflexivity.
Qed.

(** A body without a birthday, be it an object without that key, an array,
    a string, a number or a boolean, is refused with status 200: no cookie,
    the age null. *)
Theorem missing_birthday_is_denied (request : ResponseProviderRequest)
    (w : World) (jsonBody : JsonValue) :
  json request = JsonResolved jsonBody ->
  jsonBody <> JNull ->
  (forall properties,
     jsonBody = JObject properties ->
     ~ In "birthday"%string (map fst properties)) ->
  exists r,
    fst (responseProvider engineDate request w) = Resolved r /\
    status r = 200 /\
    header (headers r) "set-cookie" = None /\
    body r = JSON_stringify
               {| age := NaN; country := countryCode_of request;
                  message := "You are too young to drink!" |}.
Proof.
  intros Body NotNull NoKey.
  assert (Absent : get_property jsonBody "birthday" = Normal None).
  { destruct jsonBody as [ | | | | | properties]; try reflexivity;
      [ now destruct NotNull | ].
    cbn [get_property]. f_equal.
    apply last_property_absent, NoKey. reflexivity. }
  rewrite (responseProvider_parsed engineDate request w jsonBody None
             (mkDate NaN) Body Absent eq_refl).
  eexists. split; [ reflexivity | ].
  rewrite respond_status, respond_body, respond_headers. repeat split.
Qed.

End AnswersReadBack.

(** * Birthdays in the date-only form *)

Lemma digit_bounds (c : ascii) (n : Z) : digit c = Some n -> 0 <= n <= 9.
Proof.
  unfold digit.
  destruct (Z.leb_spec 48 (Z.of_nat (nat_of_ascii c)));
    destruct (Z.leb_spec (Z.of_nat (nat_of_ascii c)) 57);
    cbn [andb]; intros [= <-]; lia.
Qed.

Lemma Day_of_midnight (d : Z) : Day (msPerDay * d) = d.
Proof. unfold Day, msPerDay. euclid. Qed.

Lemma MakeDay_bounds (y m d : Z) :
  1 <= m <= 12 -> 1 <= d <= DaysInMonth y m ->
  DayFromYear y <= MakeDay y m d < DayFromYear (y + 1).
Proof.
  intros Hm Hd.
  pose proof (YearFromTime_day (msPerDay * MakeDay y m d)) as B.
  rewrite (MakeDay_in_year y m d Hm Hd), Day_of_midnight in B. exact B.
Qed.

(** What [parse_date_only] accepts: four digits of a year, a month and a day
    of that month; the time value is the midnight that starts the day. *)
Lemma parse_date_only_some (s : string) (b : Z) :
  parse_date_only s = Some b ->
  exists y m d,
    0 <= y <= 9999 /\ 1 <= m <= 12 /\ 1 <= d <= DaysInMonth y m /\
    b = msPerDay * MakeDay y m d.
Proof.
  unfold parse_date_only.
  destruct (list_ascii_of_string s)
    as [ | y1 [ | y2 [ | y3 [ | y4 [ | s1 [ | m1 [ | m2 [ | s2 [ | d1 [ | d2 [ | ? ?]]]]]]]]]]];
    try discriminate.
  destruct (is_dash s1 && is_dash s2); [ | discriminate ].
  cbn [digits].
  destruct (digit y1) as [a1 | ] eqn:Y1; [ | discriminate ].
  destruct (digit y2) as [a2 | ] eqn:Y2; [ | discriminate ].
  destruct (digit y3) as [a3 | ] eqn:Y3; [ | discriminate ].
  destruct (digit y4) as [a4 | ] eqn:Y4; [ | discriminate ].
  destruct (digit m1) as [b1 | ] eqn:M1; [ | discriminate ].
  destruct (digit m2) as [b2 | ] eqn:M2; [ | discriminate ].
  destruct (digit d1) as [c1 | ] eqn:D1; [ | discriminate ].
  destruct (digit d2) as [c2 | ] eqn:D2; [ | discriminate ].
  apply digit_bounds in Y1, Y2, Y3, Y4.
  match goal with
  | |- (if ?c then _ else _) = _ -> _ => destruct c eqn:Valid; [ | discriminate ]
  end.
  intros [= <-].
  apply andb_prop in Valid as [Valid Hd4].
  apply andb_prop in Valid as [Valid Hd3].
  apply andb_prop in Valid as [Hd1 Hd2].
  apply Z.leb_le in Hd1, Hd2, Hd3, Hd4.
  exists (10 * (10 * (10 * (10 * 0 + a1) + a2) + a3) + a4),
    (10 * (10 * 0 + b1) + b2), (10 * (10 * 0 + c1) + c2).
  repeat split; try assumption; lia.
Qed.

(** A birthday [YYYY-MM-DD] that names a calendar day never gives the age
    null: on every engine it gives the same integer, which is not negative
    exactly when the day has begun. *)
Theorem calendar_birthday_has_an_age (engineDate engineDate' : JsonValue -> number)
    (now : Z) (s : string) (b : Z) :
  parse_date_only s = Some b ->
  0 <= now <= 8000000000000000 ->
  exists n,
    calculateAge now (new_Date engineDate (Some (JString s))) = Num n /\
    calculateAge now (new_Date engineDate' (Some (JString s))) = Num n /\
    (0 <= n <-> b <= now).
Proof.
  intros Parsed Now.
  destruct (parse_date_only_some s b Parsed) as (y & m & d & Hy & Hm & Hd & ->).
  pose proof (MakeDay_bounds y m d Hm Hd) as [Lo Hi].
  pose proof (DayFromYear_le 0 y (proj1 Hy)) as Lo0.
  pose proof (DayFromYear_le (y + 1) 10000) as Hi0.
  change (DayFromYear 0) with (-719528) in Lo0.
  change (DayFromYear 10000) with 2932897 in Hi0.
  assert (Range : Z.abs (now - msPerDay * MakeDay y m d) <= maxTime)
    by (unfold msPerDay, maxTime; lia).
  assert (Clip : TimeClip (Num (msPerDay * MakeDay y m d))
                 = Num (msPerDay * MakeDay y m d)).
  { cbn [TimeClip].
    destruct (Z.ltb_spec maxTime (Z.abs (msPerDay * MakeDay y m d)));
      [ unfold msPerDay, maxTime in *; lia | reflexivity ]. }
  assert (D : forall e, new_Date e (Some (JString s))
                        = mkDate (Num (msPerDay * MakeDay y m d))).
  { intro e. cbn [new_Date]. rewrite Parsed. unfold Date_of_number. now rewrite Clip. }
  rewrite !D, calculateAge_in_range by exact Range.
  eexists. split; [ reflexivity | ]. split; [ reflexivity | ].
  pose proof (YearFromTime_sign (now - msPerDay * MakeDay y m d)). lia.
Qed.

(** The age against the calendar: it is the difference between the year of
    the current instant and the year of the birthdate, or one more, or one
    or two less. *)
Theorem age_against_calendar_years (now b : Z) :
  Z.abs (now - b) <= maxTime ->
  exists n,
    calculateAge now (mkDate (Num b)) = Num n /\
    YearFromTime now - YearFromTime b - 2 <= n <= YearFromTime now - YearFromTime b + 1.
Proof.
  intro In. rewrite calculateAge_in_range by exact In.
  eexists. split; [ reflexivity | ].
  pose proof (YearFromTime_day now) as N.
  pose proof (YearFromTime_day b) as B.
  pose proof (YearFromTime_day (now - b)) as E.
  assert (Dd : Day now - Day b - 1 <= Day (now - b) <= Day now - Day b)
    by (unfold Day, msPerDay; euclid).
  revert N B E Dd.
  generalize (YearFromTime now) (YearFromTime b) (YearFromTime (now - b))
    (Day now) (Day b) (Day (now - b)).
  intros Y y a dn db de N B E Dd.
  unfold DayFromYear in *. euclid.
Qed.

(** * Headers *)

(** Assigning a header changes this header only: it is found with its new
    value, and every other header reads as before. *)
Lemma set_header_changes_one_header (h : Headers) (name name' : string)
    (v : HeaderValue) :
  header (set_header h name v) name'
  = if String.eqb name name' then Some v else header h name'.
Proof.
  induction h as [ | [k old] rest IH]; cbn [set_header header].
  - reflexivity.
  - destruct (String.eqb_spec k name) as [-> | Other]; cbn [header].
    + now destruct (String.eqb name name').
    + destruct (String.eqb_spec k name') as [-> | Other'].
      * destruct (String.eqb_spec name name') as [-> | _];
          [ now destruct Other | reflexivity ].
      * exact IH.
Qed.

(** * The further statements at concrete requests *)

Lemma answers_keep_the_default_headers_witness :
  let request := Sample.born "2000-01-01" (Some "US"%string) in
  let w := Sample.world (Sample.answering (Sample.integer 21)) in
  let out := responseProvider Sample.strictEngine request w in
  let r := Sample2.answer out in
  (status r = 200 \/ status r = 503) /\
  header (headers r) "Powered-By" = Some (Multi ["Akamai EdgeWorkers: 0.0.16"%string]) /\
  header (headers r) "content-type" = Some (Multi ["application/json"%string]) /\
  (status r = 503 -> header (headers r) "set-cookie" = None) /\
  (forall name,
     header (headers r) name <> None ->
     name = "Powered-By"%string \/ name = "content-type"%string \/
     name = "set-cookie"%string).
Proof.
  cbv zeta.
  apply (answers_keep_the_default_headers Sample.strictEngine
           (Sample.born "2000-01-01" (Some "US"%string))
           (Sample.world (Sample.answering (Sample.integer 21)))
           (snd (responseProvider Sample.strictEngine
                   (Sample.born "2000-01-01" (Some "US"%string))
                   (Sample.world (Sample.answering (Sample.integer 21)))))).
  reflexivity.
Defined.

Lemma handler_logs_one_line_per_lookup_witness :
  let request := Sample.born "2000-01-01" (Some "US"%string) in
  let w := Sample.world Sample.slowStore in
  let out := responseProvider Sample.strictEngine request w in
  now (snd out) = now w /\ store (snd out) = store w /\
  exists line,
    log (snd out) = (log w ++ [line])%list /\
    line = SomethingWentWrong ErrorToStringMethod.
Proof.
  cbv zeta.
  exact (handler_logs_one_line_per_lookup Sample.strictEngine
           (Sample.born "2000-01-01" (Some "US"%string))
           (Sample.world Sample.slowStore) _ _ eq_refl).
Defined.

Lemma only_three_reads_matter_witness :
  let request := Sample.born "2000-01-01" (Some "US"%string) in
  fst (responseProvider Sample.strictEngine request
         (Sample.world (Sample.answering (Sample.integer 21))))
  = fst (responseProvider Sample.strictEngine request
           (Sample.world Sample2.elsewhere)).
Proof.
  cbv zeta.
  apply (only_three_reads_matter Sample.strictEngine).
  - reflexivity.
  - intros i Hi. unfold reading, Sample.world, Sample2.elsewhere, Sample.answering.
    cbn [store edgeKv2fa EdgeKV.namespace EdgeKV.group].
    destruct i as [ | [ | [ | i]]]; [ reflexivity | reflexivity | reflexivity | lia ].
Defined.

Lemma cookie_message_and_age_agree_witness :
  let request := Sample.born "2010-01-01" (Some "US"%string) in
  let w := Sample.world (Sample.answering (Sample.integer 21)) in
  let r := Sample2.answer (responseProvider Sample.strictEngine request w) in
  exists p,
    Decode.payload (body r) = Some p /\
    (header (headers r) "set-cookie" = Some (Single "old_enough=yes") /\
     message p = "Welcome, have a drink."%string /\
     number_ge (age p) (Num (effective_minimalAge (country p) w)) = true
     \/
     header (headers r) "set-cookie" = None /\
     message p = "You are too young to drink!"%string /\
     number_ge (age p) (Num (effective_minimalAge (country p) w)) = false).
Proof.
  cbv zeta.
  apply (cookie_message_and_age_agree Sample.strictEngine
           (Sample.born "2010-01-01" (Some "US"%string))
           (Sample.world (Sample.answering (Sample.integer 21)))
           (snd (responseProvider Sample.strictEngine
                   (Sample.born "2010-01-01" (Some "US"%string))
                   (Sample.world (Sample.answering (Sample.integer 21)))))).
  - reflexivity.
  - reflexivity.
Defined.

Lemma country_code_comes_back_witness :
  let request := Sample.born "2000-01-01" (Some Sample2.oddCountry) in
  let w := Sample.world (Sample.answering (Sample.integer 21)) in
  let r := Sample2.answer (responseProvider Sample.strictEngine request w) in
  exists jsonBody birthday birthdate p,
    json request = JsonResolved jsonBody /\
    get_property jsonBody "birthday" = Normal birthday /\
    Date_constructor Sample.strictEngine birthday = Normal birthdate /\
    Decode.payload (body r) = Some p /\
    country p = Sample2.oddCountry /\
    age p = calculateAge (now w) birthdate.
Proof.
  cbv zeta.
  apply (country_code_comes_back Sample.strictEngine
           (Sample.born "2000-01-01" (Some Sample2.oddCountry))
           (Sample.world (Sample.answering (Sample.integer 21)))
           (snd (responseProvider Sample.strictEngine
                   (Sample.born "2000-01-01" (Some Sample2.oddCountry))
                   (Sample.world (Sample.answering (Sample.integer 21)))))).
  - reflexivity.
  - discriminate.
  - reflexivity.
  - reflexivity.
Defined.

Lemma null_birthday_counts_from_1970_witness :
  let request := Sample.withBody (JObject [("birthday"%string, JNull)]) in
  let w := Sample.world (Sample.answering (Sample.integer 21)) in
  exists r,
    fst (responseProvider Sample.strictEngine request w) = Resolved r /\
    0 <= 54 /\
    header (headers r) "set-cookie" = Some (Single "old_enough=yes") /\
    body r = JSON_stringify
               {| age := Num 54; country := "US";
                  message := "Welcome, have a drink." |}.
Proof.
  cbv zeta.
  apply (null_birthday_counts_from_1970 Sample.strictEngine
           (Sample.withBody (JObject [("birthday"%string, JNull)]))
           (Sample.world (Sample.answering (Sample.integer 21)))
           (JObject [("birthday"%string, JNull)]) JNull).
  - reflexivity.
  - reflexivity.
  - now left.
  - vm_compute. split; discriminate.
Defined.

Lemma missing_birthday_is_denied_witness :
  let request := Sample.withBody (JArray [JString "2000-01-01"]) in
  let w := Sample.world (Sample.answering (Sample.integer 21)) in
  exists r,
    fst (responseProvider Sample.strictEngine request w) = Resolved r /\
    status r = 200 /\
    header (headers r) "set-cookie" = None /\
    body r = JSON_stringify
               {| age := NaN; country := "US";
                  message := "You are too young to drink!" |}.
Proof.
  cbv zeta.
  apply (missing_birthday_is_denied Sample.strictEngine
           (Sample.withBody (JArray [JString "2000-01-01"]))
           (Sample.world (Sample.answering (Sample.integer 21)))
           (JArray [JString "2000-01-01"])).
  - reflexivity.
  - discriminate.
  - discriminate.
Defined.

Lemma calendar_birthday_has_an_age_witness :
  exists n,
    calculateAge Sample.mid2024
      (new_Date Sample.strictEngine (Some (JString "2000-02-29"))) = Num n /\
    calculateAge Sample.mid2024
      (new_Date (fun _ => Num 0) (Some (JString "2000-02-29"))) = Num n /\
    (0 <= n <-> 951782400000 <= Sample.mid2024).
Proof.
  apply (calendar_birthday_has_an_age Sample.strictEngine (fun _ => Num 0)
           Sample.mid2024 "2000-02-29" 951782400000).
  - reflexivity.
  - vm_compute. split; discriminate.
Defined.

Lemma age_against_calendar_years_witness :
  exists n,
    calculateAge Sample.mid2024 (mkDate (Num 946684800000)) = Num n /\
    YearFromTime Sample.mid2024 - YearFromTime 946684800000 - 2 <= n
    <= YearFromTime Sample.mid2024 - YearFromTime 946684800000 + 1.
Proof.
  apply (age_against_calendar_years Sample.mid2024 946684800000).
  vm_compute. discriminate.
Defined.

Lemma plain_error_text_reads_back_witness :
  exists r,
    responseProvider Sample.strictEngine
      {| json := JsonRejected "SyntaxError: Unexpected end of JSON input";
         userLocation := {| EW.country := None |} |}
      (Sample.world Sample.slowStore)
    = (Resolved r, Sample.world Sample.slowStore) /\
    status r = 503 /\
    headers r = responseHeader /\
    Decode.error_message (body r)
    = Some "SyntaxError: Unexpected end of JSON input"%string.
Proof.
  apply (plain_error_text_reads_back Sample.strictEngine
           "SyntaxError: Unexpected end of JSON input"
           {| EW.country := None |} (Sample.world Sample.slowStore)).
  reflexivity.
Defined.

(** Born on 2000-01-01, with an empty country code, where the store says 21. *)
Lemma empty_country_is_NL_witness :
  fst (responseProvider Sample.strictEngine
         {| json := JsonResolved (JObject [("birthday"%string, JString "2000-01-01")]);
            userLocation := {| EW.country := Some ""%string |} |}
         (Sample.world (Sample.answering (Sample.integer 21))))
  = Resolved
      (respond (Num 24) 21
         {| age := Num 24; country := "NL";
            message := "You are too young to drink!" |}).
Proof.
  exact (proj2 (proj2
           (empty_country_is_NL Sample.strictEngine
              (JsonRejected EmptyString)
              [("birthday"%string, JString "2000-01-01")]
              (Sample.world (Sample.answering (Sample.integer 21)))))
           _ eq_refl).
Defined.
